(** * dashboard/test-server.py: the local dashboard server

    A shallow embedding of [TestDashboardHandler.do_GET] and of the
    standard-library machinery it drives ([json.dumps],
    [BaseHTTPRequestHandler.send_response] and friends,
    [SimpleHTTPRequestHandler.do_GET]), followed by the properties the
    specification states about the handler.

    Conventions.
    - A Python [str] or [bytes] is a Rocq [string] or [list byte]; text is
      taken bytewise (code points below 256).
    - A filesystem path is the list of its components below the root; the
      filesystem is a finite map from paths to nodes.
    - Handler methods run in a small state-and-exception monad over the
      handler object; system calls on the filesystem are logged so that
      the effects of a request can be stated. *)

From Stdlib Require Import ZArith Ascii String DecimalString DecimalPos Lia.
From stdpp Require Import base option list strings gmap.

Set Warnings "-register-all".

Local Open Scope string_scope.
Local Open Scope Z_scope.
Local Open Scope list_scope.

(** ** Characters and strings *)

Definition dquote : ascii := "034"%char.
Definition backslash : ascii := "092"%char.
Definition LF : ascii := "010"%char.
Definition CR : ascii := "013"%char.
Definition NUL : ascii := "000"%char.

Definition str1 (c : ascii) : string := String c EmptyString.

(** [sep.join(xs)] *)
Fixpoint join (sep : string) (xs : list string) : string :=
  match xs with
  | [] => ""
  | [x] => x
  | x :: rest => x +:+ sep +:+ join sep rest
  end.

(** [c * n] for a one-character string [c] *)
Fixpoint repeat_char (c : ascii) (n : nat) : string :=
  match n with
  | O => ""
  | S k => String c (repeat_char c k)
  end.

(** [s.startswith(p)], returning what follows the prefix *)
Fixpoint strip_prefix (p s : string) : option string :=
  match p, s with
  | EmptyString, _ => Some s
  | String a p', String b s' => if Ascii.eqb a b then strip_prefix p' s' else None
  | String _ _, EmptyString => None
  end.

Definition startswith (p s : string) : bool :=
  match strip_prefix p s with Some _ => true | None => false end.

(** [c in s] *)
Fixpoint contains_char (c : ascii) (s : string) : bool :=
  match s with
  | EmptyString => false
  | String a r => Ascii.eqb a c || contains_char c r
  end.

(** [s.lower()] on ASCII letters *)
Definition lower_char (c : ascii) : ascii :=
  let n := N_of_ascii c in
  if ((65 <=? n) && (n <=? 90))%N then ascii_of_N (n + 32) else c.

Fixpoint lower (s : string) : string :=
  match s with
  | EmptyString => EmptyString
  | String c r => String (lower_char c) (lower r)
  end.

(** [s.split(sep, 1)[0]] *)
Fixpoint before_char (c : ascii) (s : string) : string :=
  match s with
  | EmptyString => EmptyString
  | String a r => if Ascii.eqb a c then EmptyString else String a (before_char c r)
  end.

(** [s.split(sep)] for a one-character separator: always at least one piece *)
Fixpoint split_char (c : ascii) (s : string) : list string :=
  match s with
  | EmptyString => [EmptyString]
  | String a r =>
      if Ascii.eqb a c then EmptyString :: split_char c r
      else match split_char c r with
           | w :: ws => String a w :: ws
           | [] => [str1 a]
           end
  end.

(** [int.__repr__] *)
Definition intstr (z : Z) : string := NilZero.string_of_int (Z.to_int z).

Definition hexdigit (n : N) : ascii :=
  if (n <? 10)%N then ascii_of_N (48 + n) else ascii_of_N (87 + n).

(** The four-digit lower-case hexadecimal escape of a code point below
    [0x10000] *)
Definition u_escape (n : N) : string :=
  String backslash
    (String "u"
       (String (hexdigit (n / 4096 mod 16))
          (String (hexdigit (n / 256 mod 16))
             (String (hexdigit (n / 16 mod 16))
                (String (hexdigit (n mod 16)) EmptyString))))).

(** [str.encode()] / [bytes.decode()] on text below 128, where UTF-8 is the
    identity on bytes. *)
Definition encode (s : string) : list Byte.byte := list_byte_of_string s.
Definition decode (b : list Byte.byte) : string := string_of_list_byte b.

(** ** json *)

Module json.

(** A Python value as [json] sees it. A [dict] keeps insertion order, so
    it is an association list; a [float] is carried by its
    [float.__repr__], the text [json] emits for it. *)
Inductive value : Type :=
| Null
| Bool (b : bool)
| Int (z : Z)
| Float (repr : string)
| Str (s : string)
| List (xs : list value)
| Dict (items : list (string * value)).

(** [ESCAPE_DCT] and the replacement function of
    [py_encode_basestring_ascii]: every character outside the
    printable ASCII range, the double quote and the backslash are
    escaped. *)
Definition escape_char (c : ascii) : string :=
  let n := N_of_ascii c in
  if Ascii.eqb c backslash then String backslash (str1 backslash)
  else if Ascii.eqb c dquote then String backslash (str1 dquote)
  else if (n =? 8)%N then String backslash "b"
  else if (n =? 12)%N then String backslash "f"
  else if (n =? 10)%N then String backslash "n"
  else if (n =? 13)%N then String backslash "r"
  else if (n =? 9)%N then String backslash "t"
  else if ((32 <=? n) && (n <=? 126))%N then str1 c
  else u_escape n.

Fixpoint escape_ascii (s : string) : string :=
  match s with
  | EmptyString => EmptyString
  | String c r => escape_char c +:+ escape_ascii r
  end.

Definition encode_basestring_ascii (s : string) : string :=
  String dquote (escape_ascii s +:+ str1 dquote).

(** A line feed followed by [_indent * _current_indent_level] *)
Definition newline_indent (indent level : nat) : string :=
  String LF (repeat_char " " (indent * level)).

(** [_make_iterencode]: [_iterencode], [_iterencode_list] and
    [_iterencode_dict] in one recursion, the chunks concatenated. With
    [indent = None] the items follow each other on one line. *)
Fixpoint iterencode (indent : option nat) (item_separator key_separator : string)
    (level : nat) (o : value) {struct o} : string :=
  let opening lvl :=
    match indent with Some n => newline_indent n lvl | None => "" end in
  let separator lvl := item_separator +:+ opening lvl in
  match o with
  | Str s => encode_basestring_ascii s
  | Null => "null"
  | Bool true => "true"
  | Bool false => "false"
  | Int z => intstr z
  | Float r => r
  | List [] => "[]"
  | List xs =>
      "[" +:+ opening (S level)
      +:+ join (separator (S level))
            (List.map (iterencode indent item_separator key_separator (S level)) xs)
      +:+ opening level +:+ "]"
  | Dict [] => "{}"
  | Dict items =>
      "{" +:+ opening (S level)
      +:+ join (separator (S level))
            (List.map
               (fun kv =>
                  encode_basestring_ascii (fst kv) +:+ key_separator
                  +:+ iterencode indent item_separator key_separator (S level) (snd kv))
               items)
      +:+ opening level +:+ "}"
  end.

(** [json.dumps(obj, indent=indent)]: the item separator is [","] when an
    indent is given and [", "] otherwise; the key separator is [": "]. *)
Definition dumps (obj : value) (indent : option nat) : string :=
  iterencode indent
    (match indent with Some _ => "," | None => ", " end) ": " 0%nat obj.

(** *** Decoding

    [json.loads] after [py_scanstring], [JSONObject], [JSONArray] and
    [py_make_scanner]. The text left to read takes the place of the index
    into it; [None] stands for [JSONDecodeError]. An object is returned
    as its pairs in reading order; a number with a fraction or an
    exponent becomes the [Float] of its literal, which is the repr when
    the text comes from [dumps]. Escapes above code point 255 are outside
    the byte model and are refused. *)

Definition is_ws (c : ascii) : bool :=
  let n := N_of_ascii c in
  ((n =? 32) || (n =? 9) || (n =? 10) || (n =? 13))%N.

Fixpoint skip_ws (s : string) : string :=
  match s with
  | String c r => if is_ws c then skip_ws r else s
  | EmptyString => s
  end.

Definition is_digit (c : ascii) : bool :=
  let n := N_of_ascii c in ((48 <=? n) && (n <=? 57))%N.

Definition hexval (c : ascii) : option N :=
  let n := N_of_ascii c in
  if ((48 <=? n) && (n <=? 57))%N then Some (n - 48)%N
  else if ((97 <=? n) && (n <=? 102))%N then Some (n - 87)%N
  else if ((65 <=? n) && (n <=? 70))%N then Some (n - 55)%N
  else None.

(** The table [BACKSLASH] *)
Definition unescape (c : ascii) : option ascii :=
  if Ascii.eqb c dquote then Some dquote
  else if Ascii.eqb c backslash then Some backslash
  else if Ascii.eqb c "/" then Some "/"%char
  else if Ascii.eqb c "b" then Some "008"%char
  else if Ascii.eqb c "f" then Some "012"%char
  else if Ascii.eqb c "n" then Some LF
  else if Ascii.eqb c "r" then Some CR
  else if Ascii.eqb c "t" then Some "009"%char
  else None.

Definition decode_uXXXX (a b c d : ascii) : option ascii :=
  match hexval a, hexval b, hexval c, hexval d with
  | Some x, Some y, Some z, Some w =>
      let n := (x * 4096 + y * 256 + z * 16 + w)%N in
      if (n <? 256)%N then Some (ascii_of_N n) else None
  | _, _, _, _ => None
  end.

Definition cons_char (c : ascii) (r : option (string * string)) : option (string * string) :=
  match r with
  | Some (t, rest) => Some (String c t, rest)
  | None => None
  end.

(** [py_scanstring] in strict mode, started after the opening quote:
    the decoded string and the text after the closing quote. *)
Fixpoint scanstring (s : string) : option (string * string) :=
  match s with
  | EmptyString => None
  | String c r =>
      if Ascii.eqb c dquote then Some (EmptyString, r)
      else if Ascii.eqb c backslash then
        match r with
        | EmptyString => None
        | String e r1 =>
            if Ascii.eqb e "u" then
              match r1 with
              | String h1 (String h2 (String h3 (String h4 r2))) =>
                  match decode_uXXXX h1 h2 h3 h4 with
                  | Some ch => cons_char ch (scanstring r2)
                  | None => None
                  end
              | _ => None
              end
            else
              match unescape e with
              | Some ch => cons_char ch (scanstring r1)
              | None => None
              end
        end
      else if (N_of_ascii c <? 32)%N then None
      else cons_char c (scanstring r)
  end.

(** The longest run of decimal digits at the head of the text *)
Fixpoint take_digits (s : string) : string * string :=
  match s with
  | String c r =>
      if is_digit c then let '(d, rest) := take_digits r in (String c d, rest)
      else (EmptyString, s)
  | EmptyString => (EmptyString, s)
  end.

Definition int_of_digits (d : string) : Z :=
  fold_left (fun acc c => 10 * acc + Z.of_N (N_of_ascii c - 48))
    (list_ascii_of_string d) 0.

(** [NUMBER_RE]: the integer part, then the optional fraction and
    exponent groups, each matched as a whole or not at all. *)
Definition match_number (s : string) : option (value * string) :=
  let '(neg, s1) :=
    match s with
    | String c r => if Ascii.eqb c "-" then (true, r) else (false, s)
    | EmptyString => (false, s)
    end in
  let sign := if neg then "-" else "" in
  match s1 with
  | String c r =>
      if is_digit c then
        let '(ipart, s2) :=
          if Ascii.eqb c "0" then ("0", r) else take_digits s1 in
        let '(frac, s3) :=
          match s2 with
          | String p r2 =>
              if Ascii.eqb p "." then
                match take_digits r2 with
                | (EmptyString, _) => ("", s2)
                | (d, rest) => (String "." d, rest)
                end
              else ("", s2)
          | EmptyString => ("", s2)
          end in
        let '(exp, s4) :=
          match s3 with
          | String e r3 =>
              if Ascii.eqb e "e" || Ascii.eqb e "E" then
                let '(esign, r4) :=
                  match r3 with
                  | String g r5 =>
                      if Ascii.eqb g "+" || Ascii.eqb g "-" then (str1 g, r5) else ("", r3)
                  | EmptyString => ("", r3)
                  end in
                match take_digits r4 with
                | (EmptyString, _) => ("", s3)
                | (d, rest) => (String e (esign +:+ d), rest)
                end
              else ("", s3)
          | EmptyString => ("", s3)
          end in
        match frac, exp with
        | EmptyString, EmptyString =>
            Some (Int (if neg then - int_of_digits ipart else int_of_digits ipart), s4)
        | _, _ => Some (Float (sign +:+ ipart +:+ frac +:+ exp), s4)
        end
      else None
  | EmptyString => None
  end.

(** The body of [JSONObject]'s loop, entered after the opening quote of
    a key; [scan] is the scanner handed to the object parser. *)
Fixpoint object_members (scan : string -> option (value * string))
    (fuel : nat) (s : string) : option (list (string * value) * string) :=
  match fuel with
  | O => None
  | S f =>
      '(key, s1) ← scanstring s;
      match skip_ws s1 with
      | String c s2 =>
          if Ascii.eqb c ":" then
            '(v, s3) ← scan (skip_ws s2);
            match skip_ws s3 with
            | String d s4 =>
                if Ascii.eqb d "}" then Some ([(key, v)], s4)
                else if Ascii.eqb d "," then
                  match skip_ws s4 with
                  | String q s5 =>
                      if Ascii.eqb q dquote then
                        '(more, s6) ← object_members scan f s5;
                        Some ((key, v) :: more, s6)
                      else None
                  | EmptyString => None
                  end
                else None
            | EmptyString => None
            end
          else None
      | EmptyString => None
      end
  end.

(** [JSONObject], entered after the opening brace *)
Definition JSONObject (scan : string -> option (value * string)) (s : string)
    : option (value * string) :=
  match skip_ws s with
  | String c r =>
      if Ascii.eqb c "}" then Some (Dict [], r)
      else if Ascii.eqb c dquote then
        '(items, rest) ← object_members scan (String.length r) r;
        Some (Dict items, rest)
      else None
  | EmptyString => None
  end.

Fixpoint array_items (scan : string -> option (value * string))
    (fuel : nat) (s : string) : option (list value * string) :=
  match fuel with
  | O => None
  | S f =>
      '(v, s1) ← scan s;
      match skip_ws s1 with
      | String d s2 =>
          if Ascii.eqb d "]" then Some ([v], s2)
          else if Ascii.eqb d "," then
            '(more, s3) ← array_items scan f (skip_ws s2);
            Some (v :: more, s3)
          else None
      | EmptyString => None
      end
  end.

(** [JSONArray], entered after the opening bracket *)
Definition JSONArray (scan : string -> option (value * string)) (s : string)
    : option (value * string) :=
  match skip_ws s with
  | String c r =>
      if Ascii.eqb c "]" then Some (List [], r)
      else
        '(xs, rest) ← array_items scan (String.length s) (skip_ws s);
        Some (List xs, rest)
  | EmptyString => None
  end.

Definition keyword (k : string) (v : value) (s : string) : option (value * string) :=
  match strip_prefix k s with
  | Some rest => Some (v, rest)
  | None => None
  end.

(** [_scan_once]; each level of nesting uses one unit of [fuel]. *)
Fixpoint scan_once (fuel : nat) (s : string) : option (value * string) :=
  match fuel with
  | O => None
  | S f =>
      match s with
      | EmptyString => None
      | String c r =>
          if Ascii.eqb c dquote then
            '(t, rest) ← scanstring r; Some (Str t, rest)
          else if Ascii.eqb c "{" then JSONObject (scan_once f) r
          else if Ascii.eqb c "[" then JSONArray (scan_once f) r
          else if startswith "null" s then keyword "null" Null s
          else if startswith "true" s then keyword "true" (Bool true) s
          else if startswith "false" s then keyword "false" (Bool false) s
          else
            match match_number s with
            | Some res => Some res
            | None =>
                if startswith "NaN" s then keyword "NaN" (Float "nan") s
                else if startswith "Infinity" s then keyword "Infinity" (Float "inf") s
                else if startswith "-Infinity" s then keyword "-Infinity" (Float "-inf") s
                else None
            end
      end
  end.

(** [json.loads(s)]: one value, white space allowed around it, nothing
    after it. *)
Definition loads (s : string) : option value :=
  '(v, rest) ← scan_once (S (String.length s)) (skip_ws s);
  match skip_ws rest with
  | EmptyString => Some v
  | String _ _ => None
  end.

(** [dct[key]] / [key in dct] *)
Fixpoint get (key : string) (items : list (string * value)) : option value :=
  match items with
  | [] => None
  | (k, v) :: rest => if String.eqb k key then Some v else get key rest
  end.

Definition has_key (key : string) (o : value) : bool :=
  match o with
  | Dict items => match get key items with Some _ => true | None => false end
  | _ => false
  end.

Definition get_int (key : string) (o : value) : option Z :=
  match o with
  | Dict items => match get key items with Some (Int z) => Some z | _ => None end
  | _ => None
  end.

End json.

(** ** The constant fallback document *)

Import json.

(** [mock_data] of [do_GET], key for key in source order. The source
    writes [pass_rate] as [100.00], the float whose repr is [100.0]. *)
Definition mock_data : value :=
  Dict
    [ ("timestamp", Str "2025-01-21T12:00:00Z");
      ("status", Str "success");
      ("total_tests", Int 437);
      ("passed", Int 437);
      ("failed", Int 0);
      ("ignored", Int 0);
      ("pass_rate", Float "100.0");
      ("test_suites",
        Dict
          [ ("library",
              Dict [("name", Str "Library Unit Tests"); ("count", Int 396)]);
            ("infrastructure",
              Dict [("name", Str "Infrastructure Integration Tests"); ("count", Int 19)]);
            ("jetstream",
              Dict [("name", Str "JetStream Event Store Tests"); ("count", Int 6)]);
            ("persistence",
              Dict [("name", Str "Persistence Integration Tests"); ("count", Int 7)]) ]);
      ("environment",
        Dict
          [ ("rust_version", Str "1.75.0");
            ("nats_required", Bool true);
            ("nats_endpoint", Str "localhost:4222") ]) ].

(** ** The filesystem and the system calls made on it *)

Inductive node : Type :=
| File (content : list Byte.byte) (st_mtime : Z)
| Dir.

(** [pathlib]'s [.parent]: the root is its own parent. *)
Definition parent (p : list string) : list string := removelast p.

Definition basename (p : list string) : string := List.last p "".

(** The exceptions that reach the handler. [FileNotFoundError] and
    [IsADirectoryError] are [OSError]s; a name with an embedded NUL makes
    the system-call wrappers raise [ValueError] instead. *)
Inductive exn : Type :=
| FileNotFoundError
| IsADirectoryError
| ValueError.

Definition is_OSError (e : exn) : bool :=
  match e with
  | FileNotFoundError | IsADirectoryError => true
  | ValueError => false
  end.

Inductive result (A : Type) : Type :=
| Ok (a : A)
| Raise (e : exn).
Arguments Ok {A} a.
Arguments Raise {A} e.

Inductive open_mode : Type := O_RDONLY | O_WRONLY.

(** What a request asks of the filesystem, in order. *)
Inductive syscall : Type :=
| sys_stat (p : list string)
| sys_open (p : list string) (mode : open_mode)
| sys_read (p : list string)
| sys_write (p : list string)
| sys_listdir (p : list string).



Definition has_nul (p : list string) : bool := existsb (contains_char NUL) p.

(** [os.stat] *)
Definition os_stat (fs : gmap (list string) node) (p : list string) : result node :=
  if has_nul p then Raise ValueError
  else match fs !! p with
       | Some n => Ok n
       | None => Raise FileNotFoundError
       end.

(** What [Path.exists] answers *)
Definition exists_ (fs : gmap (list string) node) (p : list string) : bool :=
  match os_stat fs p with Ok _ => true | Raise _ => false end.

(** [open(p, 'rb')]: the bytes the open file will yield and the
    modification time [os.fstat] reports for it *)
Definition os_open_rb (fs : gmap (list string) node) (p : list string)
    : result (list Byte.byte * Z) :=
  match os_stat fs p with
  | Ok (File content mtime) => Ok (content, mtime)
  | Ok Dir => Raise IsADirectoryError
  | Raise e => Raise e
  end.

Fixpoint strip_list_prefix (p k : list string) : option (list string) :=
  match p, k with
  | [], _ => Some k
  | a :: p', b :: k' => if String.eqb a b then strip_list_prefix p' k' else None
  | _ :: _, [] => None
  end.

(** [os.listdir]: the names directly below [p], in no particular order,
    each with whether it is a directory. *)
Definition os_listdir (fs : gmap (list string) node) (p : list string)
    : list (string * bool) :=
  omap (fun kv =>
          match strip_list_prefix p (fst kv) with
          | Some [name] => Some (name, match snd kv with Dir => true | File _ _ => false end)
          | _ => None
          end)
       (map_to_list fs).

(** ** http.server: what goes out on the connection *)

(** The pieces written to [wfile]. *)
Inductive wire : Type :=
| status_line (version : string) (code : Z) (message : string)
| header_line (keyword value : string)
| blank_line
| data (b : list Byte.byte).

Definition CRLF : string := String CR (str1 LF).
Definition LF_string : string := str1 LF.

Definition render (w : wire) : list Byte.byte :=
  match w with
  | status_line v c m => encode (v +:+ " " +:+ intstr c +:+ " " +:+ m +:+ CRLF)
  | header_line k v => encode (k +:+ ": " +:+ v +:+ CRLF)
  | blank_line => encode CRLF
  | data b => b
  end.

(** A response as its reader takes it apart: the status code, the header
    fields up to the blank line, and every byte after it. *)
Record response : Type := {
  status : option Z;
  fields : list (string * string);
  body : list Byte.byte
}.

Fixpoint read_fields (w : list wire) : list (string * string) * list Byte.byte :=
  match w with
  | header_line k v :: rest =>
      let '(fs, b) := read_fields rest in ((k, v) :: fs, b)
  | blank_line :: rest => ([], List.concat (List.map render rest))
  | other => ([], List.concat (List.map render other))
  end.

Definition read_response (w : list wire) : response :=
  match w with
  | status_line _ code _ :: rest =>
      let '(fs, b) := read_fields rest in
      {| status := Some code; fields := fs; body := b |}
  | other => {| status := None; fields := []; body := List.concat (List.map render other) |}
  end.

(** Field names compare without regard to case. *)
Fixpoint get_field (name : string) (fs : list (string * string)) : option string :=
  match fs with
  | [] => None
  | (k, v) :: rest =>
      if String.eqb (lower k) (lower name) then Some v else get_field name rest
  end.

(** ** http.server: the request handler object *)

(** The attributes of a handler that serving a GET touches. [headers] are
    those of the request; [headers_buffer] is [_headers_buffer]. Requests
    are HTTP/1.x requests: the header-less HTTP/0.9 form, for which the
    library writes neither status line nor header fields, is not
    modelled. *)
Record handler : Type := {
  path : string;
  headers : list (string * string);
  directory : list string;
  headers_buffer : list wire;
  wfile : list wire;
  close_connection : bool
}.

Record state : Type := {
  self : handler;
  syscalls : list syscall
}.

(** What a request runs against: the filesystem and the clock. *)
Record env : Type := {
  fs : gmap (list string) node;
  now : Z
}.

Definition M (A : Type) : Type := env -> state -> result A * state.

Definition ret {A : Type} (a : A) : M A := fun _ s => (Ok a, s).

Definition bind {A B : Type} (m : M A) (k : A -> M B) : M B :=
  fun e s =>
    match m e s with
    | (Ok a, s') => k a e s'
    | (Raise x, s') => (Raise x, s')
    end.

Declare Scope M_scope.
Delimit Scope M_scope with M.
Bind Scope M_scope with M.

Notation "x ← y ; z" := (bind y (fun x => z))
  (at level 20, y at level 100, z at level 200, only parsing) : M_scope.
Notation "x ;; z" := (bind x (fun _ => z))
  (at level 100, z at level 200, only parsing, right associativity) : M_scope.

Local Open Scope M_scope.

Definition ask : M env := fun e s => (Ok e, s).
Definition get_self : M handler := fun _ s => (Ok (self s), s).
Definition put_self (h : handler) : M unit :=
  fun _ s => (Ok tt, {| self := h; syscalls := syscalls s |}).
Definition syscall_ (c : syscall) : M unit :=
  fun _ s => (Ok tt, {| self := self s; syscalls := syscalls s ++ [c] |}).
Definition lift {A : Type} (r : result A) : M A := fun _ s => (r, s).

(** [try: m except OSError: handler] *)
Definition try_OSError {A : Type} (m : M A) (handler_ : M A) : M A :=
  fun e s =>
    match m e s with
    | (Raise x, s') => if is_OSError x then handler_ e s' else (Raise x, s')
    | r => r
    end.

Definition set_path (p : string) : M unit :=
  h ← get_self;
  put_self {| path := p; headers := headers h; directory := directory h;
              headers_buffer := headers_buffer h; wfile := wfile h;
              close_connection := close_connection h |}.

Definition set_headers_buffer (b : list wire) : M unit :=
  h ← get_self;
  put_self {| path := path h; headers := headers h; directory := directory h;
              headers_buffer := b; wfile := wfile h;
              close_connection := close_connection h |}.

Definition set_close_connection (b : bool) : M unit :=
  h ← get_self;
  put_self {| path := path h; headers := headers h; directory := directory h;
              headers_buffer := headers_buffer h; wfile := wfile h;
              close_connection := b |}.

(** [self.wfile.write(...)] of some pieces *)
Definition wfile_write (ws : list wire) : M unit :=
  h ← get_self;
  put_self {| path := path h; headers := headers h; directory := directory h;
              headers_buffer := headers_buffer h; wfile := wfile h ++ ws;
              close_connection := close_connection h |}.

(** The standard-library functions whose results the handler passes on
    without looking into them. *)
Record Library : Type := {
  (** ["Python/" + sys.version.split()[0]] *)
  sys_version : string;
  (** [email.utils.formatdate(timestamp, usegmt=True)] *)
  formatdate : Z -> string;
  (** [email.utils.parsedate_to_datetime] as seconds since the epoch, when
      the value is well formed and in UTC *)
  parsedate : string -> option Z;
  (** [mimetypes.guess_type] behind [guess_type], on a file name *)
  guess_type : string -> string;
  (** [urllib.parse.urlsplit(url).path] *)
  urlsplit_path : string -> string;
  (** the URL rebuilt by [urlunsplit] with a slash added to its path *)
  with_slash : string -> string;
  (** the HTML page of [list_directory], encoded *)
  listing : string -> list (string * bool) -> list Byte.byte;
  (** [error_message_format % {...}], encoded *)
  error_message : Z -> string -> string -> list Byte.byte
}.

(** [BaseHTTPRequestHandler.responses], at the codes a GET reaches *)
Definition responses (code : Z) : option (string * string) :=
  if code =? 200 then Some ("OK", "Request fulfilled, document follows")
  else if code =? 301 then Some ("Moved Permanently", "Object moved permanently -- see URI list")
  else if code =? 304 then Some ("Not Modified", "Document has not changed since given time")
  else if code =? 404 then Some ("Not Found", "Nothing matches the given URI")
  else None.

(** The reason phrase [send_response_only] puts on the status line: the
    message given, or else the short entry of [responses], or else
    nothing *)
Definition reason (code : Z) (message : option string) : string :=
  match message with
  | Some m => m
  | None => match responses code with Some (short, _) => short | None => "" end
  end.

Definition protocol_version : string := "HTTP/1.0".
Definition server_version : string := "SimpleHTTP/0.6".
Definition error_content_type : string := "text/html;charset=utf-8".

(** [str.rstrip()] removes these at the end of a string. *)
Definition is_space (c : ascii) : bool :=
  let n := N_of_ascii c in
  (((9 <=? n) && (n <=? 13)) || ((28 <=? n) && (n <=? 32)))%N.

(** The last character of [s.rstrip()], if any *)
Fixpoint last_nonspace (s : string) : option ascii :=
  match s with
  | EmptyString => None
  | String c r =>
      match last_nonspace r with
      | Some d => Some d
      | None => if is_space c then None else Some c
      end
  end.

Fixpoint last_char (s : string) : option ascii :=
  match s with
  | EmptyString => None
  | String c EmptyString => Some c
  | String _ r => last_char r
  end.

Definition endswith_slash (s : string) : bool :=
  match last_char s with
  | Some c => Ascii.eqb c "/"
  | None => false
  end.

(** [urllib.parse.unquote]: each percent sign followed by two hexadecimal
    digits becomes the byte they spell; any other percent sign stays. *)
Fixpoint unquote (s : string) : string :=
  match s with
  | EmptyString => EmptyString
  | String c r1 =>
      if Ascii.eqb c "%" then
        match r1 with
        | String a (String b r2) =>
            match json.hexval a, json.hexval b with
            | Some x, Some y => String (ascii_of_N (16 * x + y)) (unquote r2)
            | _, _ => String c (unquote r1)
            end
        | _ => String c (unquote r1)
        end
      else String c (unquote r1)
  end.

(** The loop of [posixpath.normpath] over the components *)
Definition normpath_step (initial_slashes : bool) (new_comps : list string)
    (comp : string) : list string :=
  if String.eqb comp "" || String.eqb comp "." then new_comps
  else if negb (String.eqb comp "..")
          || (negb initial_slashes && bool_decide (new_comps = []))
          || (negb (bool_decide (new_comps = []))
              && String.eqb (List.last new_comps "") "..")
       then new_comps ++ [comp]
       else removelast new_comps.

Definition normpath (p : string) : string :=
  if String.eqb p "" then "."
  else
    let initial_slashes := startswith "/" p in
    let slashes :=
      if initial_slashes then
        if startswith "//" p && negb (startswith "///" p) then "//" else "/"
      else "" in
    let comps := fold_left (normpath_step initial_slashes) (split_char "/" p) [] in
    let r := slashes +:+ join "/" comps in
    if String.eqb r "" then "." else r.

(** [SimpleHTTPRequestHandler.translate_path]: the file named by a request
    path, and whether the name ends in a slash. *)
Definition translate_path (directory_ : list string) (p : string)
    : list string * bool :=
  let p := before_char "?" p in
  let p := before_char "#" p in
  let trailing_slash :=
    match last_nonspace p with Some c => Ascii.eqb c "/" | None => false end in
  let p := normpath (unquote p) in
  let words := List.filter (fun w => negb (String.eqb w "")) (split_char "/" p) in
  let fpath :=
    fold_left
      (fun acc word =>
         if contains_char "/" word || String.eqb word "." || String.eqb word ".."
         then acc else (acc ++ [word])%list)
      words directory_ in
  (fpath, trailing_slash || bool_decide (fpath = [])).

(** What [send_head] hands to [copyfile]: a file opened on disk, or the
    in-memory page of a directory listing. *)
Inductive fileobj : Type :=
| disk_file (p : list string) (content : list Byte.byte)
| BytesIO (b : list Byte.byte).

(** Where the first half of [send_head] leaves off: with a file name still
    to be opened, or with the response already under way. *)
Inductive located : Type :=
| to_open (p : list string) (slash : bool)
| answered (f : option fileobj).

Section Server.

Variable lib : Library.

(** The script's own [__file__]: the absolute path of [test-server.py],
    as the interpreter sets it for the main module (Python 3.9 and
    later). *)
Variable script_file : list string.

(** *** BaseHTTPRequestHandler *)

Definition version_string : string := server_version +:+ " " +:+ sys_version lib.

Definition date_time_string (timestamp : option Z) : M string :=
  e ← ask;
  ret (formatdate lib (match timestamp with Some t => t | None => now e end)).

Definition send_response_only (code : Z) (message : option string) : M unit :=
  h ← get_self;
  set_headers_buffer
    (headers_buffer h ++ [status_line protocol_version code (reason code message)]).

Definition send_header (keyword value : string) : M unit :=
  h ← get_self;
  set_headers_buffer (headers_buffer h ++ [header_line keyword value]);;
  if String.eqb (lower keyword) "connection" then
    if String.eqb (lower value) "close" then set_close_connection true
    else if String.eqb (lower value) "keep-alive" then set_close_connection false
    else ret tt
  else ret tt.

Definition flush_headers : M unit :=
  h ← get_self;
  wfile_write (headers_buffer h);;
  set_headers_buffer [].

Definition end_headers : M unit :=
  h ← get_self;
  set_headers_buffer (headers_buffer h ++ [blank_line]);;
  flush_headers.

(** [send_response]; the request log line goes to standard error and is
    left out. *)
Definition send_response (code : Z) (message : option string) : M unit :=
  send_response_only code message;;
  send_header "Server" version_string;;
  d ← date_time_string None;
  send_header "Date" d.

Definition send_error (code : Z) (message : option string) : M unit :=
  let '(shortmsg, longmsg) :=
    match responses code with Some r => r | None => ("???", "???") end in
  let message := match message with Some m => m | None => shortmsg end in
  let explain := longmsg in
  send_response code (Some message);;
  send_header "Connection" "close";;
  (if (200 <=? code) && negb ((code =? 204) || (code =? 205) || (code =? 304)) then
     let content := error_message lib code message explain in
     send_header "Content-Type" error_content_type;;
     send_header "Content-Length" (intstr (Z.of_nat (length content)));;
     end_headers;;
     match content with
     | [] => ret tt
     | _ :: _ => wfile_write [data content]
     end
   else end_headers).

(** *** SimpleHTTPRequestHandler *)

Definition os_path_isdir (p : list string) : M bool :=
  syscall_ (sys_stat p);;
  e ← ask;
  ret (match os_stat (fs e) p with Ok Dir => true | _ => false end).

Definition os_path_isfile (p : list string) : M bool :=
  syscall_ (sys_stat p);;
  e ← ask;
  ret (match os_stat (fs e) p with Ok (File _ _) => true | _ => false end).

Definition open_rb (p : list string) : M (list Byte.byte * Z) :=
  syscall_ (sys_open p O_RDONLY);;
  e ← ask;
  lift (os_open_rb (fs e) p).

Fixpoint syscalls_ (cs : list syscall) : M unit :=
  match cs with
  | [] => ret tt
  | c :: rest => syscall_ c;; syscalls_ rest
  end.

(** [list_directory]: every entry is asked for with [isdir] and
    [islink]; the page is built in memory. Listing a directory does not
    fail in this filesystem, so the branch for [OSError] is absent. *)
Definition list_directory (p : list string) : M (option fileobj) :=
  syscall_ (sys_listdir p);;
  e ← ask;
  h ← get_self;
  let entries := os_listdir (fs e) p in
  syscalls_ (flat_map (fun n => [sys_stat (p ++ [fst n]); sys_stat (p ++ [fst n])]) entries);;
  let encoded := listing lib (path h) entries in
  send_response 200 None;;
  send_header "Content-type" "text/html; charset=utf-8";;
  send_header "Content-Length" (intstr (Z.of_nat (length encoded)));;
  end_headers;;
  ret (Some (BytesIO encoded)).

(** The test for the browser cache in [send_head]: an [If-Modified-Since]
    field, no [If-None-Match], a date that parses, and a file not changed
    since. *)
Definition not_modified (hs : list (string * string)) (mtime : Z) : bool :=
  match get_field "If-Modified-Since" hs, get_field "If-None-Match" hs with
  | Some v, None =>
      match parsedate lib v with
      | Some ims => mtime <=? ims
      | None => false
      end
  | _, _ => false
  end.

Definition send_head : M (option fileobj) :=
  h ← get_self;
  let '(p, slash) := translate_path (directory h) (path h) in
  isd ← os_path_isdir p;
  r ← (if isd then
         if negb (endswith_slash (urlsplit_path lib (path h))) then
           send_response 301 None;;
           send_header "Location" (with_slash lib (path h));;
           send_header "Content-Length" "0";;
           end_headers;;
           ret (answered None)
         else
           i ← os_path_isfile (p ++ ["index.html"]);
           if i then ret (to_open (p ++ ["index.html"]) false)
           else
             j ← os_path_isfile (p ++ ["index.htm"]);
             if j then ret (to_open (p ++ ["index.htm"]) false)
             else f ← list_directory p; ret (answered f)
       else ret (to_open p slash));
  match r with
  | answered f => ret f
  | to_open p slash =>
      let ctype := guess_type lib (basename p) in
      if slash then send_error 404 (Some "File not found");; ret None
      else
        o ← try_OSError (f ← open_rb p; ret (Some f)) (ret None);
        match o with
        | None => send_error 404 (Some "File not found");; ret None
        | Some (content, mtime) =>
            if not_modified (headers h) mtime then
              send_response 304 None;;
              end_headers;;
              ret None
            else
              send_response 200 None;;
              send_header "Content-type" ctype;;
              send_header "Content-Length" (intstr (Z.of_nat (length content)));;
              d ← date_time_string (Some mtime);
              send_header "Last-Modified" d;;
              end_headers;;
              ret (Some (disk_file p content))
        end
  end.

(** [shutil.copyfileobj(source, self.wfile)] *)
Definition copyfile (source : fileobj) : M unit :=
  match source with
  | disk_file p content => syscall_ (sys_read p);; wfile_write [data content]
  | BytesIO b => wfile_write [data b]
  end.

(** [SimpleHTTPRequestHandler.do_GET], the [super().do_GET()] of the
    dashboard handler *)
Definition super_do_GET : M unit :=
  f ← send_head;
  match f with
  | Some f => copyfile f
  | None => ret tt
  end.

(** *** test-server.py *)

Definition PORT : Z := 8080.

(** [Path(__file__).parent.parent / 'test-results' / 'summary.json'] *)
Definition test_results_path : list string :=
  parent (parent script_file) ++ ["test-results"; "summary.json"].

(** The dashboard directory's own [test-results/summary.json], the file
    static file serving would look for on the summary path *)
Definition own_summary : list string :=
  parent script_file ++ ["test-results"; "summary.json"].

(** [Path.exists]: [os.stat] went through; [OSError] and [ValueError]
    both mean no. *)
Definition Path_exists (p : list string) : M bool :=
  syscall_ (sys_stat p);;
  e ← ask;
  ret (exists_ (fs e) p).

(** How the [if]/[elif] of [do_GET] is left: by one of its [return]s, or
    at its end, with the default file serving still to come. *)
Inductive flow : Type := returned | fell_through.

(** The [if]/[elif] of [TestDashboardHandler.do_GET] *)
Definition route : M flow :=
  h ← get_self;
  if String.eqb (path h) "/" then
    set_path "/index.html";;
    ret fell_through
  else if String.eqb (path h) "/test-results/summary.json" then
    ex ← Path_exists test_results_path;
    if ex then
      send_response 200 None;;
      send_header "Content-type" "application/json";;
      send_header "Access-Control-Allow-Origin" "*";;
      end_headers;;
      f ← open_rb test_results_path;
      syscall_ (sys_read test_results_path);;
      wfile_write [data (fst f)];;
      ret returned
    else
      send_response 200 None;;
      send_header "Content-type" "application/json";;
      send_header "Access-Control-Allow-Origin" "*";;
      end_headers;;
      wfile_write [data (encode (json.dumps mock_data (Some 2%nat)))];;
      ret returned
  else ret fell_through.

(** [TestDashboardHandler.do_GET]: the routes above, then
    [return super().do_GET()]. *)
Definition do_GET : M unit :=
  k ← route;
  match k with
  | returned => ret tt
  | fell_through => super_do_GET
  end.

(** A GET request as it reaches the handler: the request target and the
    header fields. *)
Record request : Type := {
  target : string;
  request_headers : list (string * string)
}.

(** [os.getcwd()] once [__main__] has run
    [os.chdir(Path(__file__).parent)] *)
Definition getcwd : list string := parent script_file.

(** The handler the server builds for a request; its [directory] is
    [os.getcwd()], asked for when the handler is made, which is after
    [__main__] has changed directory and started the server. *)
Definition TestDashboardHandler (req : request) : handler :=
  {| path := target req;
     headers := request_headers req;
     directory := getcwd;
     headers_buffer := [];
     wfile := [];
     close_connection := true |}.

Definition fresh (req : request) : state :=
  {| self := TestDashboardHandler req; syscalls := [] |}.

(** Serving one GET: the outcome of [do_GET] and the final state. *)
Definition handle (e : env) (req : request) : result unit * state :=
  do_GET e (fresh req).

(** What the client receives, and what was asked of the filesystem. *)
Definition GET (e : env) (req : request) : response :=
  read_response (wfile (self (snd (handle e req)))).

Definition trace (e : env) (req : request) : list syscall :=
  syscalls (snd (handle e req)).

End Server.

(** The one path [do_GET] answers itself *)
Definition summary_json : string := "/test-results/summary.json".

(** ** State changes, named

    The effect of each library call on the handler, as a function on
    states; the equations further down say which call does which. *)

Definition with_path (p : string) (h : handler) : handler :=
  {| path := p; headers := headers h; directory := directory h;
     headers_buffer := headers_buffer h; wfile := wfile h;
     close_connection := close_connection h |}.

Definition buffer (ws : list wire) (h : handler) : handler :=
  {| path := path h; headers := headers h; directory := directory h;
     headers_buffer := headers_buffer h ++ ws; wfile := wfile h;
     close_connection := close_connection h |}.

Definition flush (h : handler) : handler :=
  {| path := path h; headers := headers h; directory := directory h;
     headers_buffer := []; wfile := wfile h ++ headers_buffer h;
     close_connection := close_connection h |}.

Definition write (ws : list wire) (h : handler) : handler :=
  {| path := path h; headers := headers h; directory := directory h;
     headers_buffer := headers_buffer h; wfile := wfile h ++ ws;
     close_connection := close_connection h |}.

Definition closing (b : bool) (h : handler) : handler :=
  {| path := path h; headers := headers h; directory := directory h;
     headers_buffer := headers_buffer h; wfile := wfile h;
     close_connection := b |}.

Definition on_self (f : handler -> handler) (s : state) : state :=
  {| self := f (self s); syscalls := syscalls s |}.

Definition logged (cs : list syscall) (s : state) : state :=
  {| self := self s; syscalls := syscalls s ++ cs |}.

(** The status line and the two fields every [send_response] starts with *)
Definition response_head (lib : Library) (e : env) (code : Z) (message : string)
    : list wire :=
  [ status_line protocol_version code message;
    header_line "Server" (version_string lib);
    header_line "Date" (formatdate lib (now e)) ].

(** The state [send_error(404, message)] leaves *)
Definition error_sent (lib : Library) (e : env) (message : string) (s : state) : state :=
  let content := error_message lib 404 message "Nothing matches the given URI" in
  let sent :=
    on_self flush
      (on_self (buffer [ header_line "Content-Type" error_content_type;
                         header_line "Content-Length" (intstr (Z.of_nat (length content)));
                         blank_line ])
         (on_self (closing true)
            (on_self (buffer (response_head lib e 404 message
                              ++ [header_line "Connection" "close"])) s))) in
  match content with
  | [] => sent
  | _ :: _ => on_self (write [data content]) sent
  end.

(** The file a system call names *)
Definition syscall_path (c : syscall) : list string :=
  match c with
  | sys_stat p | sys_open p _ | sys_read p | sys_write p | sys_listdir p => p
  end.




(** ** Two readings to be tested

    What the specification says of reads and of routing, literally, for
    one request; both are put to the test on the concrete installation
    below. *)


(** A path other than the root that begins with a slash is left as it is
    and handed to the default file serving. *)
Definition left_to_file_serving (lib : Library) (script_file : list string)
    (e : env) (req : request) : Prop :=
  target req <> "/" ->
  startswith "/" (target req) = true ->
  path (self (snd (route lib script_file e (fresh script_file req)))) = target req
  /\ handle lib script_file e req = super_do_GET lib e (fresh script_file req).

(** ** The numbers of the fallback document *)

Definition field_int (key : string) (o : json.value) : Z :=
  match json.get_int key o with Some z => z | None => 0 end.

(** The [count] of every entry of [test_suites], in order *)
Definition suite_counts (o : json.value) : list Z :=
  match o with
  | json.Dict items =>
      match json.get "test_suites" items with
      | Some (json.Dict suites) => List.map (fun kv => field_int "count" (snd kv)) suites
      | _ => []
      end
  | _ => []
  end.

Definition sum (zs : list Z) : Z := fold_right Z.add 0 zs.

Definition summary_keys : list string :=
  [ "timestamp"; "status"; "total_tests"; "passed"; "failed"; "ignored";
    "pass_rate"; "test_suites"; "environment" ].

(** ** A concrete installation

    One checkout of the repository with its dashboard directory, and
    stand-ins for the library functions, to run requests against. *)

Module Demo.

Definition extension (name : string) : string :=
  match rev (split_char "." name) with
  | ext :: _ :: _ => ext
  | _ => ""
  end.

Definition lib : Library :=
  {| sys_version := "Python/3.11.2";
     formatdate := fun t => intstr t +:+ " s";
     parsedate := fun _ => None;
     guess_type := fun name =>
       if String.eqb (extension name) "html" then "text/html"
       else if String.eqb (extension name) "json" then "application/json"
       else "application/octet-stream";
     urlsplit_path := fun url => before_char "#" (before_char "?" url);
     with_slash := fun url => before_char "#" (before_char "?" url) +:+ "/";
     listing := fun p entries => encode (join LF_string (List.map fst entries));
     error_message := fun code message explain =>
       encode (intstr code +:+ " " +:+ message +:+ ": " +:+ explain) |}.

Definition script_file : list string :=
  ["home"; "dev"; "cim-domain"; "dashboard"; "test-server.py"].

Definition dashboard : list string := ["home"; "dev"; "cim-domain"; "dashboard"].

Definition index_html : list Byte.byte := encode "<!DOCTYPE html><title>Tests</title>".

Definition results : list Byte.byte :=
  encode (json.dumps (json.Dict [("total_tests", json.Int 1); ("passed", json.Int 1)]) None).

(** A checkout without results *)
Definition checkout : gmap (list string) node :=
  <[ (dashboard ++ ["index.html"])%list := File index_html 1737460800 ]>
    (<[ (dashboard ++ ["test-server.py"])%list := File [] 1737460800 ]>
       (<[ dashboard := Dir ]>
          (<[ ["home"; "dev"; "cim-domain"] := Dir ]> ∅))).

(** The same after a test run has written its summary *)
Definition checkout_with_results : gmap (list string) node :=
  <[ ["home"; "dev"; "cim-domain"; "test-results"; "summary.json"]
     := File results 1737464400 ]>
    (<[ ["home"; "dev"; "cim-domain"; "test-results"] := Dir ]> checkout).

(** A summary placed under the dashboard directory itself *)
Definition stray : list Byte.byte := encode "{}".

Definition checkout_with_stray : gmap (list string) node :=
  <[ (dashboard ++ ["test-results"; "summary.json"])%list := File stray 1737464400 ]>
    checkout.

Definition morning : env := {| fs := checkout; now := 1737460800 |}.
Definition evening : env := {| fs := checkout_with_stray; now := 1737500000 |}.
Definition after_tests : env := {| fs := checkout_with_results; now := 1737464500 |}.

Definition get (t : string) : request := {| target := t; request_headers := [] |}.

Definition get_from_browser (t : string) : request :=
  {| target := t;
     request_headers := [("Host", "localhost:8080"); ("Accept", "application/json")] |}.

End Demo.

(** The state a request ends in when it has sent [ws] and made the system
    calls [cs]. *)
Definition finished (h : handler) (ws : list wire) (cs : list syscall) : state :=
  {| self := write ws h; syscalls := cs |}.

(** The header block of both answers to the summary request *)
Definition json_head (lib : Library) (e : env) : list wire :=
  response_head lib e 200 "OK"
  ++ [ header_line "Content-type" "application/json";
       header_line "Access-Control-Allow-Origin" "*";
       blank_line ].

(** What [do_GET] comes to on the summary path, read off the three things
    [os.stat] can say about the results file: a regular file, a directory,
    or nothing there. *)
Definition summary_outcome (lib : Library) (e : env) (h : handler)
    (p : list string) (st : result node) : result unit * state :=
  match st with
  | Ok (File content _) =>
      (Ok tt,
       finished h (json_head lib e ++ [data content])
         [sys_stat p; sys_open p O_RDONLY; sys_read p])
  | Ok Dir =>
      (Raise IsADirectoryError,
       finished h (json_head lib e) [sys_stat p; sys_open p O_RDONLY])
  | Raise _ =>
      (Ok tt,
       finished h (json_head lib e ++ [data (encode (json.dumps mock_data (Some 2%nat)))])
         [sys_stat p])
  end.

(** ** Further installations

    The checkout again, with things in the way at the results path. *)

Module Cases.

(** A directory where the results file should be *)
Definition checkout_with_results_directory : gmap (list string) node :=
  <[ ["home"; "dev"; "cim-domain"; "test-results"; "summary.json"] := Dir ]>
    (<[ ["home"; "dev"; "cim-domain"; "test-results"] := Dir ]> Demo.checkout).

Definition blocked : env :=
  {| fs := checkout_with_results_directory; now := 1737464500 |}.

(** The dashboard directory with nothing in it *)
Definition empty_dashboard : gmap (list string) node :=
  <[ Demo.dashboard := Dir ]> (<[ ["home"; "dev"; "cim-domain"] := Dir ]> ∅).

Definition bare : env := {| fs := empty_dashboard; now := 1737464500 |}.

(** A library that reads one date *)
Definition lib : Library :=
  {| sys_version := sys_version Demo.lib;
     formatdate := formatdate Demo.lib;
     parsedate := fun v =>
       if String.eqb v "Tue, 21 Jan 2025 13:00:00 GMT" then Some 1737464400 else None;
     guess_type := guess_type Demo.lib;
     urlsplit_path := urlsplit_path Demo.lib;
     with_slash := with_slash Demo.lib;
     listing := listing Demo.lib;
     error_message := error_message Demo.lib |}.


End Cases.

(** ** The default file serving, in closed form *)

(** What goes out for a regular file: a bare 304 when the browser's copy
    is still good, else 200 with type, length, date of change and the
    bytes. *)
Definition file_answer (lib : Library) (e : env) (hs : list (string * string))
    (name : list string) (content : list Byte.byte) (mtime : Z) : list wire :=
  if not_modified lib hs mtime then
    response_head lib e 304 "Not Modified" ++ [blank_line]
  else
    response_head lib e 200 "OK"
    ++ [ header_line "Content-type" (guess_type lib (basename name));
         header_line "Content-Length" (intstr (Z.of_nat (length content)));
         header_line "Last-Modified" (formatdate lib mtime);
         blank_line;
         data content ].

(** The state [send_head] and [copyfile] leave once the file [name] is
    settled on: opened, answered as above, and read if sent. *)
Definition served_file (lib : Library) (e : env) (name : list string)
    (content : list Byte.byte) (mtime : Z) (s : state) : state :=
  if not_modified lib (headers (self s)) mtime then
    on_self flush
      (on_self (buffer (response_head lib e 304 "Not Modified" ++ [blank_line]))
         (logged [sys_open name O_RDONLY] s))
  else
    on_self (write [data content])
      (on_self flush
         (on_self (buffer (response_head lib e 200 "OK"
                           ++ [ header_line "Content-type" (guess_type lib (basename name));
                                header_line "Content-Length"
                                  (intstr (Z.of_nat (length content)));
                                header_line "Last-Modified" (formatdate lib mtime);
                                blank_line ]))
            (logged [sys_open name O_RDONLY; sys_read name] s))).

(** ** Staying inside the script's directory *)






(** ** __main__ *)

(** What reaches the running server: a connection carrying a GET, met
    with the filesystem and clock of its moment, or the interrupt
    signal. *)
Inductive event : Type :=
| connection (e : env) (req : request)
| SIGINT.

Definition is_SIGINT (ev : event) : bool :=
  match ev with SIGINT => true | connection _ _ => false end.

(** The two private flags of [socketserver.BaseServer]; [is_shut_down]
    is a [threading.Event]. *)
Record BaseServer : Type := {
  shutdown_requested : bool;
  is_shut_down : bool
}.

(** How control leaves the loop of [serve_forever] *)
Inductive departure : Type :=
| loop_ended
| KeyboardInterrupt
| blocked_in_select.

(** The [while] loop of [serve_forever]. A connection is given to a new
    handler; whether [do_GET] returns or raises, the loop goes on, for
    [_handle_request_noblock] catches every [Exception]. The interrupt is
    raised out of [select]; with no event left the server waits there. *)
Fixpoint serve_forever_loop (lib : Library) (script_file : list string)
    (events : list event) : list (result unit * state) * departure :=
  match events with
  | [] => ([], blocked_in_select)
  | SIGINT :: _ => ([], KeyboardInterrupt)
  | connection e req :: rest =>
      let outcome := handle lib script_file e req in
      let '(outcomes, how) := serve_forever_loop lib script_file rest in
      (outcome :: outcomes, how)
  end.

(** [serve_forever]: the event is cleared, the loop runs unless a
    shutdown was asked for, and on the way out, by return or by
    exception, the [finally] clause sets the event. *)
Definition serve_forever (lib : Library) (script_file : list string)
    (srv : BaseServer) (events : list event)
    : list (result unit * state) * departure * BaseServer :=
  if shutdown_requested srv then
    ([], loop_ended, {| shutdown_requested := false; is_shut_down := true |})
  else
    match serve_forever_loop lib script_file events with
    | (outcomes, blocked_in_select) =>
        (outcomes, blocked_in_select,
         {| shutdown_requested := false; is_shut_down := false |})
    | (outcomes, how) =>
        (outcomes, how, {| shutdown_requested := false; is_shut_down := true |})
    end.

(** [shutdown]: asks the loop to stop and waits for the event; [None]
    when that wait can never end. *)
Definition shutdown (srv : BaseServer) : option BaseServer :=
  if is_shut_down srv then
    Some {| shutdown_requested := true; is_shut_down := true |}
  else None.

Inductive ending : Type :=
| exited
| still_serving
| deadlocked
| address_in_use.

(** What a run of the script comes to: the lines printed, the outcome of
    every request handled, and how it ended. *)
Record run : Type := {
  stdout : list string;
  outcomes : list (result unit * state);
  ended : ending
}.

Definition banner : list string :=
  [ "Dashboard server running at http://localhost:" +:+ intstr PORT;
    "Press Ctrl+C to stop" ].

Definition farewell : string := String LF "Shutting down...".

(** The [__main__] block. The change of directory shows in [getcwd]; the
    server is made (the bind fails when the port is taken, before
    anything is printed), the two lines are printed, and the server
    serves until interrupted. *)
Definition main (lib : Library) (script_file : list string)
    (port_free : bool) (events : list event) : run :=
  if port_free then
    match serve_forever lib script_file
            {| shutdown_requested := false; is_shut_down := false |} events with
    | (answers, KeyboardInterrupt, srv) =>
        {| stdout := banner ++ [farewell];
           outcomes := answers;
           ended := match shutdown srv with Some _ => exited | None => deadlocked end |}
    | (answers, loop_ended, _) =>
        {| stdout := banner; outcomes := answers; ended := exited |}
    | (answers, blocked_in_select, _) =>
        {| stdout := banner; outcomes := answers; ended := still_serving |}
    end
  else {| stdout := []; outcomes := []; ended := address_in_use |}.

(** The connections that come before the first interrupt *)
Fixpoint before_interrupt (events : list event) : list (env * request) :=
  match events with
  | connection e req :: rest => (e, req) :: before_interrupt rest
  | _ => []
  end.

(** ** Documents [json] can carry

    What [json.dumps] writes is meant to be read back by [json.loads].
    The definitions below say for which values, and name the pieces of
    the text and of [NUMBER_RE] the proof of that goes through. *)

(** What may follow a number in a text without cutting it short: the end
    of the text, or a character [NUMBER_RE] would not go on with. *)
Definition number_ends (rest : string) : bool :=
  match rest with
  | EmptyString => true
  | String c _ =>
      negb (json.is_digit c || Ascii.eqb c "." || Ascii.eqb c "e" || Ascii.eqb c "E")
  end.











(** Induction on values that reaches the items of lists and dicts *)
Section value_induction.
Variable P : json.value -> Prop.
Hypothesis HNull : P json.Null.
Hypothesis HBool : forall b, P (json.Bool b).
Hypothesis HInt : forall z, P (json.Int z).
Hypothesis HFloat : forall r, P (json.Float r).
Hypothesis HStr : forall s, P (json.Str s).
Hypothesis HList : forall xs, Forall P xs -> P (json.List xs).
Hypothesis HDict : forall items, Forall (fun kv => P (snd kv)) items -> P (json.Dict items).

End value_induction.

(** The item separator [json.dumps] chooses for an indent *)
Definition item_separator (indent : option nat) : string :=
  match indent with Some _ => "," | None => ", " end.

(** What [_iterencode_list] and [_iterencode_dict] write before an item
    and before the closing bracket at a level *)
Definition opening (indent : option nat) (level : nat) : string :=
  match indent with Some n => json.newline_indent n level | None => "" end.


(** ** Running the handler, one call at a time *)

Section Execution.

Variable lib : Library.
Variable script_file : list string.

Lemma bind_Ok {A B : Type} (m : M A) (k : A -> M B) e s a s1 :
  m e s = (Ok a, s1) -> bind m k e s = k a e s1.
Proof. intros H. unfold bind. now rewrite H. Qed.

Lemma bind_Raise {A B : Type} (m : M A) (k : A -> M B) e s x s1 :
  m e s = (Raise x, s1) -> bind m k e s = (Raise x, s1).
Proof. intros H. unfold bind. now rewrite H. Qed.

Lemma ret_Ok {A : Type} (a : A) e s : ret a e s = (Ok a, s).
Proof. reflexivity. Qed.

Lemma get_self_Ok e s : get_self e s = (Ok (self s), s).
Proof. reflexivity. Qed.

Lemma ask_Ok e s : ask e s = (Ok e, s).
Proof. reflexivity. Qed.

Lemma syscall_Ok c e s : syscall_ c e s = (Ok tt, logged [c] s).
Proof. reflexivity. Qed.

Lemma set_path_Ok p e s : set_path p e s = (Ok tt, on_self (with_path p) s).
Proof. reflexivity. Qed.

Lemma wfile_write_Ok ws e s : wfile_write ws e s = (Ok tt, on_self (write ws) s).
Proof. reflexivity. Qed.

Lemma date_time_string_Ok t e s :
  date_time_string lib t e s
  = (Ok (formatdate lib (match t with Some t => t | None => now e end)), s).
Proof. reflexivity. Qed.

Lemma send_response_only_Ok code message e s :
  send_response_only code message e s
  = (Ok tt, on_self (buffer [status_line protocol_version code (reason code message)]) s).
Proof. reflexivity. Qed.

(** A field other than [Connection] only joins the buffer. *)
Lemma send_header_Ok keyword value e s :
  String.eqb (lower keyword) "connection" = false ->
  send_header keyword value e s = (Ok tt, on_self (buffer [header_line keyword value]) s).
Proof.
  intros H. unfold send_header.
  erewrite bind_Ok by apply get_self_Ok.
  erewrite bind_Ok by reflexivity.
  rewrite H. reflexivity.
Qed.

Lemma send_header_close e s :
  send_header "Connection" "close" e s
  = (Ok tt, on_self (closing true) (on_self (buffer [header_line "Connection" "close"]) s)).
Proof. reflexivity. Qed.

Lemma end_headers_Ok e s :
  end_headers e s = (Ok tt, on_self flush (on_self (buffer [blank_line]) s)).
Proof. reflexivity. Qed.

Lemma buffer_buffer a b s :
  on_self (buffer b) (on_self (buffer a) s) = on_self (buffer (a ++ b)) s.
Proof. unfold on_self, buffer; simpl. now rewrite <- app_assoc. Qed.

Lemma send_response_Ok code message e s :
  send_response lib code message e s
  = (Ok tt, on_self (buffer (response_head lib e code (reason code message))) s).
Proof.
  unfold send_response.
  erewrite bind_Ok by apply send_response_only_Ok.
  erewrite bind_Ok by (apply send_header_Ok; reflexivity).
  erewrite bind_Ok by apply date_time_string_Ok.
  rewrite send_header_Ok by reflexivity.
  now rewrite !buffer_buffer.
Qed.

Lemma Path_exists_Ok p e s :
  Path_exists p e s = (Ok (exists_ (fs e) p), logged [sys_stat p] s).
Proof. reflexivity. Qed.

Lemma open_rb_eq p e s :
  open_rb p e s = (os_open_rb (fs e) p, logged [sys_open p O_RDONLY] s).
Proof.
  unfold open_rb. erewrite bind_Ok by apply syscall_Ok.
  erewrite bind_Ok by apply ask_Ok. reflexivity.
Qed.

Ltac step L := erewrite bind_Ok by (apply L; reflexivity); cbv beta.

(** The four calls that open both answers to the summary request *)
Lemma send_json_head {A : Type} (k : M A) e s :
  (send_response lib 200 None;;
   send_header "Content-type" "application/json";;
   send_header "Access-Control-Allow-Origin" "*";;
   end_headers;;
   k) e s
  = k e (on_self flush (on_self (buffer (json_head lib e)) s)).
Proof.
  step send_response_Ok.
  step send_header_Ok. step send_header_Ok. step end_headers_Ok.
  now rewrite !buffer_buffer.
Qed.

Lemma route_summary e req :
  target req = summary_json ->
  route lib script_file e (fresh script_file req)
  = (if exists_ (fs e) (test_results_path script_file) then
       (send_response lib 200 None;;
        send_header "Content-type" "application/json";;
        send_header "Access-Control-Allow-Origin" "*";;
        end_headers;;
        f ← open_rb (test_results_path script_file);
        syscall_ (sys_read (test_results_path script_file));;
        wfile_write [data (fst f)];;
        ret returned)
     else
       (send_response lib 200 None;;
        send_header "Content-type" "application/json";;
        send_header "Access-Control-Allow-Origin" "*";;
        end_headers;;
        wfile_write [data (encode (json.dumps mock_data (Some 2%nat)))];;
        ret returned))
      e (logged [sys_stat (test_results_path script_file)] (fresh script_file req)).
Proof.
  intros Ht. unfold route.
  step get_self_Ok.
  change (path (self (fresh script_file req))) with (target req).
  rewrite Ht. unfold summary_json.
  change (String.eqb "/test-results/summary.json" "/") with false.
  change (String.eqb "/test-results/summary.json" "/test-results/summary.json") with true.
  cbv iota.
  step Path_exists_Ok. reflexivity.
Qed.

Lemma route_missing e req :
  target req = summary_json ->
  exists_ (fs e) (test_results_path script_file) = false ->
  route lib script_file e (fresh script_file req)
  = (Ok returned,
     finished (TestDashboardHandler script_file req)
       (json_head lib e ++ [data (encode (json.dumps mock_data (Some 2%nat)))])
       [sys_stat (test_results_path script_file)]).
Proof.
  intros Ht Hx. rewrite route_summary, Hx by assumption.
  rewrite send_json_head. step wfile_write_Ok. 
  unfold finished, on_self, logged, fresh, flush, buffer, write. simpl. reflexivity.
Qed.

Lemma route_file e req content mtime :
  target req = summary_json ->
  os_stat (fs e) (test_results_path script_file) = Ok (File content mtime) ->
  route lib script_file e (fresh script_file req)
  = (Ok returned,
     finished (TestDashboardHandler script_file req)
       (json_head lib e ++ [data content])
       [ sys_stat (test_results_path script_file);
         sys_open (test_results_path script_file) O_RDONLY;
         sys_read (test_results_path script_file) ]).
Proof.
  intros Ht Hs. rewrite route_summary by assumption.
  unfold exists_. rewrite Hs. rewrite send_json_head.
  erewrite bind_Ok by (rewrite open_rb_eq; unfold os_open_rb; rewrite Hs; reflexivity).
  step syscall_Ok. step wfile_write_Ok.
  reflexivity.
Qed.

(** Something is there, but it is a directory: [exists()] says yes, the
    header block goes out, and [open] raises. *)
Lemma route_directory e req :
  target req = summary_json ->
  os_stat (fs e) (test_results_path script_file) = Ok Dir ->
  route lib script_file e (fresh script_file req)
  = (Raise IsADirectoryError,
     finished (TestDashboardHandler script_file req)
       (json_head lib e)
       [ sys_stat (test_results_path script_file);
         sys_open (test_results_path script_file) O_RDONLY ]).
Proof.
  intros Ht Hs. rewrite route_summary by assumption.
  unfold exists_. rewrite Hs. rewrite send_json_head.
  erewrite bind_Raise by (rewrite open_rb_eq; unfold os_open_rb; rewrite Hs; reflexivity).
  reflexivity.
Qed.

Lemma route_root e req :
  target req = "/" ->
  route lib script_file e (fresh script_file req)
  = (Ok fell_through, on_self (with_path "/index.html") (fresh script_file req)).
Proof.
  intros Ht. unfold route. step get_self_Ok.
  change (path (self (fresh script_file req))) with (target req).
  rewrite Ht. reflexivity.
Qed.

Lemma route_other e req :
  target req <> "/" ->
  target req <> summary_json ->
  route lib script_file e (fresh script_file req)
  = (Ok fell_through, fresh script_file req).
Proof.
  intros H1 H2. unfold route. step get_self_Ok.
  change (path (self (fresh script_file req))) with (target req).
  destruct (String.eqb_spec (target req) "/") as [E | _]; [contradiction |].
  destruct (String.eqb_spec (target req) "/test-results/summary.json") as [E | _];
    [contradiction | reflexivity].
Qed.

(** [do_GET] on the summary path, whatever is on disk *)
Lemma handle_summary e req :
  target req = summary_json ->
  handle lib script_file e req
  = summary_outcome lib e (TestDashboardHandler script_file req)
      (test_results_path script_file)
      (os_stat (fs e) (test_results_path script_file)).
Proof.
  intros Ht. unfold handle, do_GET.
  destruct (os_stat (fs e) (test_results_path script_file)) as [[content mtime | ] | x] eqn:Hs.
  - erewrite bind_Ok by (eapply route_file; eassumption). reflexivity.
  - erewrite bind_Raise by (apply route_directory; assumption). reflexivity.
  - erewrite bind_Ok by (apply route_missing; [assumption | unfold exists_; now rewrite Hs]).
    reflexivity.
Qed.

Lemma handle_root e req :
  target req = "/" ->
  handle lib script_file e req
  = super_do_GET lib e (on_self (with_path "/index.html") (fresh script_file req)).
Proof.
  intros Ht. unfold handle, do_GET.
  erewrite bind_Ok by (apply route_root; assumption). reflexivity.
Qed.

Lemma handle_other e req :
  target req <> "/" ->
  target req <> summary_json ->
  handle lib script_file e req = super_do_GET lib e (fresh script_file req).
Proof.
  intros H1 H2. unfold handle, do_GET.
  erewrite bind_Ok by (apply route_other; assumption). reflexivity.
Qed.

(** *** Reading the answers *)

Lemma read_json_head e rest :
  read_response (json_head lib e ++ rest)
  = {| status := Some 200;
       fields := [ ("Server", version_string lib);
                   ("Date", formatdate lib (now e));
                   ("Content-type", "application/json");
                   ("Access-Control-Allow-Origin", "*") ];
       body := List.concat (List.map render rest) |}.
Proof. reflexivity. Qed.

Lemma get_field_skip name k v rest :
  String.eqb (lower k) (lower name) = false ->
  get_field name ((k, v) :: rest) = get_field name rest.
Proof. intros H. simpl. now rewrite H. Qed.

Lemma get_field_here name k v rest :
  String.eqb (lower k) (lower name) = true ->
  get_field name ((k, v) :: rest) = Some v.
Proof. intros H. simpl. now rewrite H. Qed.

(** What the client reads when the summary is answered with [payload] *)
Lemma read_json_answer e payload (r : response) :
  r = read_response (json_head lib e ++ [data payload]) ->
  status r = Some 200
  /\ get_field "Content-Type" (fields r) = Some "application/json"
  /\ get_field "Access-Control-Allow-Origin" (fields r) = Some "*"
  /\ body r = payload.
Proof.
  intros ->. rewrite read_json_head. cbn [status fields body].
  split; [reflexivity |].
  split; [rewrite !get_field_skip by reflexivity; now apply get_field_here |].
  split; [rewrite !get_field_skip by reflexivity; now apply get_field_here |].
  cbn. apply app_nil_r.
Qed.

Lemma GET_summary e req :
  target req = summary_json ->
  GET lib script_file e req
  = read_response
      (wfile (self (snd (summary_outcome lib e (TestDashboardHandler script_file req)
                           (test_results_path script_file)
                           (os_stat (fs e) (test_results_path script_file)))))).
Proof. intros Ht. unfold GET. now rewrite handle_summary. Qed.

Lemma GET_results_file e req content mtime :
  target req = summary_json ->
  os_stat (fs e) (test_results_path script_file) = Ok (File content mtime) ->
  GET lib script_file e req = read_response (json_head lib e ++ [data content]).
Proof. intros Ht Hs. rewrite GET_summary, Hs by assumption. reflexivity. Qed.

Lemma not_exists_Raise (m : gmap (list string) node) p :
  exists_ m p = false -> exists x, os_stat m p = Raise x.
Proof.
  unfold exists_. destruct (os_stat m p); [discriminate | eauto].
Qed.

Lemma GET_fallback e req :
  target req = summary_json ->
  exists_ (fs e) (test_results_path script_file) = false ->
  GET lib script_file e req
  = read_response (json_head lib e ++ [data (encode (json.dumps mock_data (Some 2%nat)))]).
Proof.
  intros Ht Hx. destruct (not_exists_Raise _ _ Hx) as [x Hs].
  rewrite GET_summary, Hs by assumption. reflexivity.
Qed.

Lemma handle_fallback e req :
  target req = summary_json ->
  exists_ (fs e) (test_results_path script_file) = false ->
  fst (handle lib script_file e req) = Ok tt.
Proof.
  intros Ht Hx. destruct (not_exists_Raise _ _ Hx) as [x Hs].
  rewrite handle_summary, Hs by assumption. reflexivity.
Qed.

(** *** The summary route *)

(** C1. Whenever the results file exists at
    [<parent of the script directory>/test-results/summary.json], a GET of
    [/test-results/summary.json] completes with status 200, content type
    [application/json], [Access-Control-Allow-Origin: *], and a body that
    is the file's bytes, byte for byte. *)
Theorem summary_serves_results_file e req content mtime :
  target req = summary_json ->
  os_stat (fs e) (test_results_path script_file) = Ok (File content mtime) ->
  fst (handle lib script_file e req) = Ok tt
  /\ status (GET lib script_file e req) = Some 200
  /\ get_field "Content-Type" (fields (GET lib script_file e req)) = Some "application/json"
  /\ get_field "Access-Control-Allow-Origin" (fields (GET lib script_file e req)) = Some "*"
  /\ body (GET lib script_file e req) = content.
Proof.
  intros Ht Hs. split.
  - rewrite handle_summary, Hs by assumption. reflexivity.
  - apply (read_json_answer e). eapply GET_results_file; eassumption.
Qed.

(** The serialized fallback document is plain ASCII, so that encoding it
    leaves it byte for byte as it is. *)
Lemma mock_data_dumps_ascii :
  forallb (fun c => (N_of_ascii c <? 128)%N)
    (list_ascii_of_string (json.dumps mock_data (Some 2%nat))) = true.
Proof. vm_compute. reflexivity. Qed.

(** The fallback document read back: [json.loads] of what [json.dumps]
    wrote gives the document again. *)
Lemma mock_data_round_trip :
  json.loads (decode (encode (json.dumps mock_data (Some 2%nat)))) = Some mock_data.
Proof. vm_compute. reflexivity. Qed.

(** C2. Whenever the results file does not exist, a GET of
    [/test-results/summary.json] completes with status 200 and the same
    two header fields; its body is [json.dumps(mock_data, indent=2)],
    encoded; that body deserializes to an object with the keys timestamp,
    status, total_tests, passed, failed, ignored, pass_rate, test_suites
    and environment, in which total_tests = passed + failed + ignored,
    namely 437 = 437 + 0 + 0. *)
Theorem summary_falls_back_to_mock_data e req :
  target req = summary_json ->
  exists_ (fs e) (test_results_path script_file) = false ->
  fst (handle lib script_file e req) = Ok tt
  /\ status (GET lib script_file e req) = Some 200
  /\ get_field "Content-Type" (fields (GET lib script_file e req)) = Some "application/json"
  /\ get_field "Access-Control-Allow-Origin" (fields (GET lib script_file e req)) = Some "*"
  /\ body (GET lib script_file e req) = encode (json.dumps mock_data (Some 2%nat))
  /\ exists doc : json.value,
       json.loads (decode (body (GET lib script_file e req))) = Some doc
       /\ forallb (fun key => json.has_key key doc) summary_keys = true
       /\ json.get_int "total_tests" doc = Some 437
       /\ json.get_int "passed" doc = Some 437
       /\ json.get_int "failed" doc = Some 0
       /\ json.get_int "ignored" doc = Some 0
       /\ field_int "total_tests" doc
          = field_int "passed" doc + field_int "failed" doc + field_int "ignored" doc.
Proof.
  intros Ht Hx.
  destruct (read_json_answer e _ _ (GET_fallback e req Ht Hx)) as (H1 & H2 & H3 & H4).
  split; [now apply handle_fallback |].
  repeat (split; [assumption |]).
  exists mock_data. rewrite H4. split; [apply mock_data_round_trip |].
  repeat split.
Qed.

(** C6. A GET of [/test-results/summary.json] is answered with status 200
    whatever is or is not at the results path; when nothing is there the
    handler completes normally and the body is the fallback document. *)
Theorem summary_status_is_always_200 e req :
  target req = summary_json ->
  status (GET lib script_file e req) = Some 200
  /\ (exists_ (fs e) (test_results_path script_file) = false ->
      fst (handle lib script_file e req) = Ok tt
      /\ body (GET lib script_file e req) = encode (json.dumps mock_data (Some 2%nat))).
Proof.
  intros Ht. split.
  - rewrite GET_summary by assumption.
    destruct (os_stat (fs e) (test_results_path script_file)) as [[content mtime | ] | x];
      reflexivity.
  - intros Hx. split; [now apply handle_fallback |].
    now destruct (read_json_answer e _ _ (GET_fallback e req Ht Hx)) as (_ & _ & _ & H).
Qed.

Lemma os_stat_insert_ne (m : gmap (list string) node) p q n :
  p <> q -> os_stat (<[p := n]> m) q = os_stat m q.
Proof. intros H. unfold os_stat. now rewrite lookup_insert_ne. Qed.

(** C8. A GET of [/test-results/summary.json] never reaches the default
    file serving. Two filesystems that agree on the results path get the
    same answer (at the same clock, which sets the Date field); every
    system call of the request names the results path; and, the results
    path lying elsewhere, a [test-results/summary.json] put under the
    script's own directory changes nothing. *)
Theorem summary_never_falls_through e req :
  target req = summary_json ->
  fst (route lib script_file e (fresh script_file req)) <> Ok fell_through
  /\ (forall e',
        now e' = now e ->
        os_stat (fs e') (test_results_path script_file)
        = os_stat (fs e) (test_results_path script_file) ->
        handle lib script_file e' req = handle lib script_file e req)
  /\ forallb (fun c => bool_decide (syscall_path c = test_results_path script_file))
        (trace lib script_file e req) = true
  /\ (own_summary script_file <> test_results_path script_file ->
      forall n,
        GET lib script_file {| fs := <[own_summary script_file := n]> (fs e); now := now e |} req
        = GET lib script_file e req).
Proof.
  intros Ht.
  assert (Hsame : forall e',
             now e' = now e ->
             os_stat (fs e') (test_results_path script_file)
             = os_stat (fs e) (test_results_path script_file) ->
             handle lib script_file e' req = handle lib script_file e req).
  { intros e' Hnow Hstat. rewrite !handle_summary, Hstat by assumption.
    unfold summary_outcome, json_head, response_head. now rewrite Hnow. }
  split; [| split; [exact Hsame | split]].
  - destruct (os_stat (fs e) (test_results_path script_file)) as [[content mtime | ] | x] eqn:Hs.
    + erewrite route_file by eassumption. discriminate.
    + rewrite route_directory by assumption. discriminate.
    + rewrite route_missing by (try assumption; unfold exists_; now rewrite Hs). discriminate.
  - unfold trace. rewrite handle_summary by assumption.
    destruct (os_stat (fs e) (test_results_path script_file)) as [[content mtime | ] | x];
      cbn [summary_outcome finished snd syscalls forallb syscall_path];
      rewrite !bool_decide_eq_true_2 by reflexivity; reflexivity.
  - intros Hne n. unfold GET.
    rewrite Hsame; [reflexivity | reflexivity |].
    cbn [fs]. now apply os_stat_insert_ne.
Qed.

(** *** The root *)

(** C4. On every filesystem and at every clock, a GET of [/] and a GET of
    [/index.html] carrying the same header fields run the handler to the
    same final state, so the two responses agree in status, fields and
    body. *)
Theorem root_answers_as_index_html e (hs : list (string * string)) :
  handle lib script_file e {| target := "/"; request_headers := hs |}
  = handle lib script_file e {| target := "/index.html"; request_headers := hs |}
  /\ GET lib script_file e {| target := "/"; request_headers := hs |}
     = GET lib script_file e {| target := "/index.html"; request_headers := hs |}.
Proof.
  assert (H : handle lib script_file e {| target := "/"; request_headers := hs |}
              = handle lib script_file e {| target := "/index.html"; request_headers := hs |}).
  { rewrite handle_root by reflexivity.
    rewrite handle_other by (cbn [target]; unfold summary_json; discriminate).
    reflexivity. }
  split; [exact H |]. unfold GET. now rewrite H.
Qed.

(** *** The default file serving *)




Lemma logged_logged a b s : logged b (logged a s) = logged (a ++ b) s.
Proof. unfold logged; simpl. now rewrite <- app_assoc. Qed.

Lemma send_error_404 message e s :
  send_error lib 404 (Some message) e s = (Ok tt, error_sent lib e message s).
Proof.
  unfold send_error.
  change (responses 404) with (Some ("Not Found", "Nothing matches the given URI")).
  change ((200 <=? 404) && negb ((404 =? 204) || (404 =? 205) || (404 =? 304))) with true.
  cbv iota beta.
  step send_response_Ok.
  erewrite bind_Ok by apply send_header_close. cbv beta.
  step send_header_Ok. step send_header_Ok. step end_headers_Ok.
  unfold error_sent.
  destruct (error_message lib 404 message "Nothing matches the given URI");
    [rewrite ret_Ok | rewrite wfile_write_Ok]; rewrite !buffer_buffer; reflexivity.
Qed.

Lemma error_sent_status message e s :
  wfile (self s) = [] ->
  headers_buffer (self s) = [] ->
  status (read_response (wfile (self (error_sent lib e message s)))) = Some 404.
Proof.
  intros Hw Hb. unfold error_sent.
  destruct (error_message lib 404 message "Nothing matches the given URI");
    cbn; rewrite Hw, Hb; reflexivity.
Qed.

Lemma os_path_isdir_Ok p e s :
  os_path_isdir p e s
  = (Ok (match os_stat (fs e) p with Ok Dir => true | _ => false end), logged [sys_stat p] s).
Proof. reflexivity. Qed.

(** Nothing under the translated name: the answer is 404 whether or not
    the name ends in a slash. *)
Lemma super_do_GET_missing e s p slash :
  translate_path (directory (self s)) (path (self s)) = (p, slash) ->
  os_stat (fs e) p = Raise FileNotFoundError ->
  super_do_GET lib e s
  = (Ok tt,
     error_sent lib e "File not found"
       (logged (sys_stat p :: (if slash then [] else [sys_open p O_RDONLY])) s)).
Proof.
  intros Ht Hs. unfold super_do_GET, send_head.
  destruct slash.
  - erewrite bind_Ok; cycle 1.
    { step get_self_Ok. rewrite Ht.
      erewrite bind_Ok by apply os_path_isdir_Ok. cbv beta. rewrite Hs.
      erewrite bind_Ok by apply ret_Ok. cbv beta iota.
      step send_error_404. apply ret_Ok. }
    reflexivity.
  - erewrite bind_Ok; cycle 1.
    { step get_self_Ok. rewrite Ht.
      erewrite bind_Ok by apply os_path_isdir_Ok. cbv beta. rewrite Hs.
      erewrite bind_Ok by apply ret_Ok. cbv beta iota.
      erewrite bind_Ok; cycle 1.
      { unfold try_OSError.
        erewrite bind_Raise
          by (rewrite open_rb_eq; unfold os_open_rb; rewrite Hs; reflexivity).
        cbn [is_OSError]. apply ret_Ok. }
      cbv beta iota. step send_error_404. rewrite logged_logged. apply ret_Ok. }
    reflexivity.
Qed.

Lemma try_Ok {A : Type} (m h : M A) e s a s1 :
  m e s = (Ok a, s1) -> try_OSError m h e s = (Ok a, s1).
Proof. intros H. unfold try_OSError. now rewrite H. Qed.





(** C9, as the code has it. Only the path [/], exactly, is rewritten to
    [/index.html]; every other path is left as it was received, and,
    unless it is [/test-results/summary.json], goes to the default file
    serving as received. *)
Theorem only_the_root_is_rewritten e req :
  (target req = "/" ->
   path (self (snd (route lib script_file e (fresh script_file req)))) = "/index.html")
  /\ (target req <> "/" ->
      path (self (snd (route lib script_file e (fresh script_file req)))) = target req)
  /\ (target req <> "/" ->
      target req <> summary_json ->
      handle lib script_file e req = super_do_GET lib e (fresh script_file req)).
Proof.
  split; [| split].
  - intros Ht. rewrite route_root by assumption. reflexivity.
  - intros H1.
    destruct (String.eqb_spec (target req) summary_json) as [Ht | H2].
    + destruct (os_stat (fs e) (test_results_path script_file))
        as [[content mtime | ] | x] eqn:Hs.
      * erewrite route_file by eassumption. reflexivity.
      * rewrite route_directory by assumption. reflexivity.
      * rewrite route_missing by (try assumption; unfold exists_; now rewrite Hs).
        reflexivity.
    + rewrite route_other by assumption. reflexivity.
  - apply handle_other.
Qed.

End Execution.

(** ** The fallback document, wherever it is served *)

(** C10. With no results file, the body answered to
    [/test-results/summary.json] is one fixed byte string: two requests
    get the same body whatever their header fields, the clock, the rest
    of the filesystem, the place of the script or the library version. *)
Theorem fallback_body_is_constant
    (lib1 lib2 : Library) (script1 script2 : list string)
    (e1 e2 : env) (req1 req2 : request) :
  target req1 = summary_json ->
  target req2 = summary_json ->
  exists_ (fs e1) (test_results_path script1) = false ->
  exists_ (fs e2) (test_results_path script2) = false ->
  body (GET lib1 script1 e1 req1) = body (GET lib2 script2 e2 req2)
  /\ body (GET lib1 script1 e1 req1) = encode (json.dumps mock_data (Some 2%nat)).
Proof.
  intros T1 T2 X1 X2.
  destruct (read_json_answer lib1 e1 _ _ (GET_fallback lib1 script1 e1 req1 T1 X1))
    as (_ & _ & _ & B1).
  destruct (read_json_answer lib2 e2 _ _ (GET_fallback lib2 script2 e2 req2 T2 X2))
    as (_ & _ & _ & B2).
  split; [now rewrite B1, B2 | exact B1].
Qed.

(** C3, as the code has it. In the fallback document total_tests is 437
    and equals passed + failed + ignored = 437 + 0 + 0; the counts of the
    four test suites are 396, 19, 6 and 7, which add up to 428. *)
Theorem mock_data_totals :
  json.get_int "total_tests" mock_data = Some 437
  /\ json.get_int "passed" mock_data = Some 437
  /\ json.get_int "failed" mock_data = Some 0
  /\ json.get_int "ignored" mock_data = Some 0
  /\ field_int "total_tests" mock_data
     = field_int "passed" mock_data + field_int "failed" mock_data
       + field_int "ignored" mock_data
  /\ suite_counts mock_data = [396; 19; 6; 7]
  /\ sum (suite_counts mock_data) = 428.
Proof. repeat split. Qed.

(** C3, as stated, fails: total_tests is not the sum of the suite counts. *)
Lemma suite_counts_do_not_add_up_to_total :
  json.get_int "total_tests" mock_data <> Some (sum (suite_counts mock_data)).
Proof. vm_compute. discriminate. Qed.

(** ** The theorems at work on the concrete installation *)

Lemma summary_serves_results_file_witness :
  os_stat (fs Demo.after_tests) (test_results_path Demo.script_file)
  = Ok (File Demo.results 1737464400)
  /\ status (GET Demo.lib Demo.script_file Demo.after_tests
               (Demo.get_from_browser summary_json)) = Some 200
  /\ body (GET Demo.lib Demo.script_file Demo.after_tests
             (Demo.get_from_browser summary_json)) = Demo.results.
Proof.
  assert (Hs : os_stat (fs Demo.after_tests) (test_results_path Demo.script_file)
               = Ok (File Demo.results 1737464400)) by (vm_compute; reflexivity).
  split; [exact Hs |].
  destruct (summary_serves_results_file Demo.lib Demo.script_file Demo.after_tests
              (Demo.get_from_browser summary_json) Demo.results 1737464400 eq_refl Hs)
    as (_ & H1 & _ & _ & H2).
  split; assumption.
Defined.

Lemma summary_falls_back_to_mock_data_witness :
  exists_ (fs Demo.evening) (test_results_path Demo.script_file) = false
  /\ status (GET Demo.lib Demo.script_file Demo.evening (Demo.get summary_json)) = Some 200
  /\ body (GET Demo.lib Demo.script_file Demo.evening (Demo.get summary_json))
     = encode (json.dumps mock_data (Some 2%nat)).
Proof.
  assert (Hx : exists_ (fs Demo.evening) (test_results_path Demo.script_file) = false)
    by (vm_compute; reflexivity).
  split; [exact Hx |].
  destruct (summary_falls_back_to_mock_data Demo.lib Demo.script_file Demo.evening
              (Demo.get summary_json) eq_refl Hx)
    as (_ & H1 & _ & _ & H2 & _).
  split; assumption.
Defined.

Lemma summary_status_is_always_200_witness :
  exists_ (fs Demo.morning) (test_results_path Demo.script_file) = false
  /\ status (GET Demo.lib Demo.script_file Demo.morning (Demo.get summary_json)) = Some 200
  /\ fst (handle Demo.lib Demo.script_file Demo.morning (Demo.get summary_json)) = Ok tt.
Proof.
  assert (Hx : exists_ (fs Demo.morning) (test_results_path Demo.script_file) = false)
    by (vm_compute; reflexivity).
  split; [exact Hx |].
  destruct (summary_status_is_always_200 Demo.lib Demo.script_file Demo.morning
              (Demo.get summary_json) eq_refl)
    as (H1 & H2).
  split; [exact H1 | exact (proj1 (H2 Hx))].
Defined.

Lemma summary_never_falls_through_witness :
  own_summary Demo.script_file <> test_results_path Demo.script_file
  /\ GET Demo.lib Demo.script_file
       {| fs := <[own_summary Demo.script_file := File Demo.stray 1737464400]>
                  (fs Demo.morning);
          now := now Demo.morning |}
       (Demo.get summary_json)
     = GET Demo.lib Demo.script_file Demo.morning (Demo.get summary_json).
Proof.
  assert (Hne : own_summary Demo.script_file <> test_results_path Demo.script_file)
    by (vm_compute; discriminate).
  split; [exact Hne |].
  destruct (summary_never_falls_through Demo.lib Demo.script_file Demo.morning
              (Demo.get summary_json) eq_refl)
    as (_ & _ & _ & H).
  exact (H Hne (File Demo.stray 1737464400)).
Defined.



Lemma only_the_root_is_rewritten_witness :
  path (self (snd (route Demo.lib Demo.script_file Demo.morning
                     (fresh Demo.script_file (Demo.get "/")))))
  = "/index.html"
  /\ path (self (snd (route Demo.lib Demo.script_file Demo.morning
                        (fresh Demo.script_file (Demo.get "/?x=1")))))
     = "/?x=1"
  /\ handle Demo.lib Demo.script_file Demo.morning (Demo.get "/?x=1")
     = super_do_GET Demo.lib Demo.morning (fresh Demo.script_file (Demo.get "/?x=1")).
Proof.
  assert (H1 : target (Demo.get "/?x=1") <> "/") by (cbn; discriminate).
  assert (H2 : target (Demo.get "/?x=1") <> summary_json)
    by (cbn; unfold summary_json; discriminate).
  split; [| split].
  - exact (proj1 (only_the_root_is_rewritten Demo.lib Demo.script_file Demo.morning
                    (Demo.get "/")) eq_refl).
  - exact (proj1 (proj2 (only_the_root_is_rewritten Demo.lib Demo.script_file
                           Demo.morning (Demo.get "/?x=1"))) H1).
  - exact (proj2 (proj2 (only_the_root_is_rewritten Demo.lib Demo.script_file
                           Demo.morning (Demo.get "/?x=1"))) H1 H2).
Defined.

Lemma fallback_body_is_constant_witness :
  body (GET Demo.lib Demo.script_file Demo.morning (Demo.get summary_json))
  = body (GET Demo.lib Demo.script_file Demo.evening (Demo.get_from_browser summary_json)).
Proof.
  apply (fallback_body_is_constant Demo.lib Demo.lib Demo.script_file Demo.script_file
           Demo.morning Demo.evening (Demo.get summary_json)
           (Demo.get_from_browser summary_json));
    vm_compute; reflexivity.
Defined.


(** C9, as stated, fails: [/test-results/summary.json] is a path other
    than [/] that begins with a slash, and it is not handed to the default
    file serving, which here would have served the stray file. *)
Lemma summary_path_is_not_left_to_file_serving :
  ~ left_to_file_serving Demo.lib Demo.script_file Demo.evening (Demo.get summary_json).
Proof.
  unfold left_to_file_serving. intros H.
  destruct H as [_ H].
  - cbn. unfold summary_json. discriminate.
  - reflexivity.
  - apply (f_equal (fun r => syscalls (snd r))) in H.
    vm_compute in H. discriminate H.
Qed.

(** ** More of the handler's behaviour *)

Section Behaviour.

Variable lib : Library.
Variable script_file : list string.

(** X1. When the results path is a directory, [exists()] says yes: the
    handler sends status 200 and the JSON header block, then [open]
    raises [IsADirectoryError]; no body byte is written, and the
    filesystem was asked twice, by [stat] and by [open]. *)
Theorem results_path_is_a_directory e req :
  target req = summary_json ->
  os_stat (fs e) (test_results_path script_file) = Ok Dir ->
  fst (handle lib script_file e req) = Raise IsADirectoryError
  /\ status (GET lib script_file e req) = Some 200
  /\ get_field "Content-Type" (fields (GET lib script_file e req)) = Some "application/json"
  /\ body (GET lib script_file e req) = []
  /\ trace lib script_file e req
     = [ sys_stat (test_results_path script_file);
         sys_open (test_results_path script_file) O_RDONLY ].
Proof.
  intros Ht Hs. unfold GET, trace.
  rewrite handle_summary, Hs by assumption.
  repeat split.
Qed.

(** X2. The answer to the summary path does not look at the request's
    header fields: two requests for it get the same response whatever
    they send, so that an [If-Modified-Since] never earns a 304 here. *)
Theorem summary_ignores_request_fields e req req' :
  target req = summary_json ->
  target req' = summary_json ->
  GET lib script_file e req = GET lib script_file e req'.
Proof.
  intros Ht Ht'. rewrite !GET_summary by assumption.
  destruct (os_stat (fs e) (test_results_path script_file)) as [[content mtime | ] | x];
    reflexivity.
Qed.

(** X3. Whatever is at the results path, the answer to the summary path
    carries exactly four header fields, in this order: Server, Date,
    Content-type, Access-Control-Allow-Origin. There is no Content-Length,
    and the handler is left with [close_connection] set, the end of the
    connection marking the end of the body. *)
Theorem summary_header_fields e req :
  target req = summary_json ->
  fields (GET lib script_file e req)
  = [ ("Server", version_string lib);
      ("Date", formatdate lib (now e));
      ("Content-type", "application/json");
      ("Access-Control-Allow-Origin", "*") ]
  /\ get_field "Content-Length" (fields (GET lib script_file e req)) = None
  /\ close_connection (self (snd (handle lib script_file e req))) = true.
Proof.
  intros Ht. unfold GET. rewrite handle_summary by assumption.
  destruct (os_stat (fs e) (test_results_path script_file)) as [[content mtime | ] | x];
    repeat split.
Qed.

(** *** Falling through to the default file serving *)

Ltac run L := erewrite bind_Ok by (apply L; reflexivity); cbv beta.

Lemma os_path_isfile_Ok p e s :
  os_path_isfile p e s
  = (Ok (match os_stat (fs e) p with Ok (File _ _) => true | _ => false end),
     logged [sys_stat p] s).
Proof. reflexivity. Qed.

(** [send_head] from the point where the file to open is known, and
    [copyfile] after it *)
Lemma open_and_send e s name content mtime :
  os_stat (fs e) name = Ok (File content mtime) ->
  (f ← ((o ← try_OSError (f ← open_rb name; ret (Some f)) (ret None);
         match o with
         | None => send_error lib 404 (Some "File not found");; ret None
         | Some (content, mtime) =>
             if not_modified lib (headers (self s)) mtime then
               send_response lib 304 None;;
               end_headers;;
               ret None
             else
               send_response lib 200 None;;
               send_header "Content-type" (guess_type lib (basename name));;
               send_header "Content-Length" (intstr (Z.of_nat (length content)));;
               d ← date_time_string lib (Some mtime);
               send_header "Last-Modified" d;;
               end_headers;;
               ret (Some (disk_file name content))
         end) : M (option fileobj));
   match f with
   | Some f => copyfile f
   | None => ret tt
   end) e s
  = (Ok tt, served_file lib e name content mtime s).
Proof.
  intros Hs. unfold served_file.
  destruct (not_modified lib (headers (self s)) mtime) eqn:Hm.
  - erewrite bind_Ok; cycle 1.
    { erewrite bind_Ok; cycle 1.
      { apply try_Ok.
        erewrite bind_Ok
          by (rewrite open_rb_eq; unfold os_open_rb; rewrite Hs; reflexivity).
        apply ret_Ok. }
      cbv beta iota. rewrite Hm.
      run send_response_Ok. run end_headers_Ok. apply ret_Ok. }
    cbv beta iota. rewrite ret_Ok, !buffer_buffer. reflexivity.
  - erewrite bind_Ok; cycle 1.
    { erewrite bind_Ok; cycle 1.
      { apply try_Ok.
        erewrite bind_Ok
          by (rewrite open_rb_eq; unfold os_open_rb; rewrite Hs; reflexivity).
        apply ret_Ok. }
      cbv beta iota. rewrite Hm.
      run send_response_Ok. run send_header_Ok. run send_header_Ok.
      run date_time_string_Ok. run send_header_Ok. run end_headers_Ok.
      apply ret_Ok. }
    cbv beta iota. unfold copyfile.
    run syscall_Ok. rewrite wfile_write_Ok, !buffer_buffer.
    unfold on_self, logged; cbn. now rewrite <- !app_assoc.
Qed.

Lemma bind_assoc {A B C : Type} (m : M A) (k : A -> M B) (k' : B -> M C) e s :
  bind (bind m k) k' e s = bind m (fun x => bind (k x) k') e s.
Proof. unfold bind. destruct (m e s) as [[a | x] s1]; reflexivity. Qed.

(** A regular file under the translated name *)
Lemma super_do_GET_serves_file e s p content mtime :
  translate_path (directory (self s)) (path (self s)) = (p, false) ->
  os_stat (fs e) p = Ok (File content mtime) ->
  super_do_GET lib e s
  = (Ok tt, served_file lib e p content mtime (logged [sys_stat p] s)).
Proof.
  intros Ht Hs. unfold super_do_GET, send_head.
  rewrite bind_assoc. run get_self_Ok. rewrite Ht.
  rewrite bind_assoc. erewrite bind_Ok by apply os_path_isdir_Ok. cbv beta. rewrite Hs.
  rewrite bind_assoc. erewrite bind_Ok by apply ret_Ok. cbv beta iota zeta.
  exact (open_and_send e (logged [sys_stat p] s) p content mtime Hs).
Qed.

(** A directory asked for with its slash, holding an [index.html] *)
Lemma super_do_GET_serves_index e s p slash content mtime :
  translate_path (directory (self s)) (path (self s)) = (p, slash) ->
  os_stat (fs e) p = Ok Dir ->
  endswith_slash (urlsplit_path lib (path (self s))) = true ->
  os_stat (fs e) (p ++ ["index.html"]) = Ok (File content mtime) ->
  super_do_GET lib e s
  = (Ok tt,
     served_file lib e (p ++ ["index.html"]) content mtime
       (logged [sys_stat p; sys_stat (p ++ ["index.html"])] s)).
Proof.
  intros Ht Hd Hu Hs. unfold super_do_GET, send_head.
  rewrite bind_assoc. run get_self_Ok. rewrite Ht.
  rewrite bind_assoc. erewrite bind_Ok by apply os_path_isdir_Ok. cbv beta. rewrite Hd.
  cbv iota. rewrite Hu. cbn [negb].
  rewrite !bind_assoc. erewrite bind_Ok by apply os_path_isfile_Ok. cbv beta.
  rewrite Hs. cbv iota.
  erewrite bind_Ok by apply ret_Ok. cbv beta iota zeta.
  rewrite logged_logged.
  exact (open_and_send e (logged [sys_stat p; sys_stat (p ++ ["index.html"])] s)
           (p ++ ["index.html"]) content mtime Hs).
Qed.

Lemma read_served_file e s name content mtime :
  wfile (self s) = [] ->
  headers_buffer (self s) = [] ->
  read_response (wfile (self (served_file lib e name content mtime s)))
  = read_response (file_answer lib e (headers (self s)) name content mtime).
Proof.
  intros Hw Hb. unfold served_file, file_answer.
  destruct (not_modified lib (headers (self s)) mtime); cbn; rewrite Hw, Hb; reflexivity.
Qed.


(** Reading a file answered in full, and a file answered by 304 *)
Lemma read_file_answer_200 e hs name content mtime (r : response) :
  not_modified lib hs mtime = false ->
  r = read_response (file_answer lib e hs name content mtime) ->
  status r = Some 200
  /\ get_field "Content-Type" (fields r) = Some (guess_type lib (basename name))
  /\ get_field "Content-Length" (fields r) = Some (intstr (Z.of_nat (length content)))
  /\ get_field "Last-Modified" (fields r) = Some (formatdate lib mtime)
  /\ body r = content.
Proof.
  intros Hm ->. unfold file_answer. rewrite Hm.
  split; [reflexivity |].
  split; [reflexivity |].
  split; [reflexivity |].
  split; [reflexivity |].
  cbn. apply app_nil_r.
Qed.


(** *** Three request paths, translated *)

Lemma app_not_nil (d : list string) (w : string) (ws : list string) :
  bool_decide (d ++ w :: ws = []) = false.
Proof. apply bool_decide_eq_false_2. destruct d; discriminate. Qed.

Lemma translate_index_html (d : list string) :
  translate_path d "/index.html" = (d ++ ["index.html"], false).
Proof.
  unfold translate_path.
  change (before_char "#" (before_char "?" "/index.html")) with "/index.html".
  replace (List.filter (fun w => negb (String.eqb w ""))
             (split_char "/" (normpath (unquote "/index.html"))))
    with ["index.html"] by (vm_compute; reflexivity).
  cbn [fold_left]. change (contains_char "/" "index.html") with false.
  cbn [orb String.eqb Ascii.eqb Bool.eqb last_nonspace is_space].
  rewrite app_not_nil. reflexivity.
Qed.

(** A query after the summary path is cut off, and what is left names
    the script directory's own [test-results/summary.json]. *)
Lemma translate_summary_with_query (d : list string) (q : string) :
  translate_path d (summary_json +:+ String "?" q)
  = (d ++ ["test-results"; "summary.json"], false).
Proof.
  unfold translate_path.
  change (before_char "?" (summary_json +:+ String "?" q)) with summary_json.
  change (before_char "#" summary_json) with summary_json.
  replace (List.filter (fun w => negb (String.eqb w ""))
             (split_char "/" (normpath (unquote summary_json))))
    with ["test-results"; "summary.json"] by (vm_compute; reflexivity).
  replace (last_nonspace summary_json) with (Some "n"%char) by (vm_compute; reflexivity).
  cbn [fold_left].
  change (contains_char "/" "test-results") with false.
  change (contains_char "/" "summary.json") with false.
  cbn [orb String.eqb Ascii.eqb Bool.eqb].
  rewrite <- app_assoc. cbn [app]. rewrite app_not_nil. reflexivity.
Qed.

(** The root with a query is the directory itself, asked for with its
    slash. *)
Lemma translate_root_with_query (d : list string) (q : string) :
  translate_path d (String "/" (String "?" q)) = (d, true).
Proof.
  unfold translate_path.
  change (before_char "?" (String "/" (String "?" q))) with "/".
  change (before_char "#" "/") with "/".
  replace (List.filter (fun w => negb (String.eqb w ""))
             (split_char "/" (normpath (unquote "/"))))
    with (@nil string) by (vm_compute; reflexivity).
  reflexivity.
Qed.

Lemma GET_file e s p content mtime :
  wfile (self s) = [] ->
  headers_buffer (self s) = [] ->
  translate_path (directory (self s)) (path (self s)) = (p, false) ->
  os_stat (fs e) p = Ok (File content mtime) ->
  read_response (wfile (self (snd (super_do_GET lib e s))))
  = read_response (file_answer lib e (headers (self s)) p content mtime).
Proof.
  intros Hw Hb Ht Hs. erewrite super_do_GET_serves_file by eassumption.
  cbn [snd].
  exact (read_served_file e (logged [sys_stat p] s) p content mtime Hw Hb).
Qed.

(** *** Regular files *)



(** *** The summary path with a query *)

(** X4. [do_GET] compares the whole request target, query included, with
    the summary path: with anything after a question mark the request is
    not the summary request. It falls through to the default file
    serving, which cuts the query off and looks for
    [test-results/summary.json] under the script's own directory; with
    nothing there the answer is 404, not the fallback document, and a
    file there is sent as it is. *)
Theorem summary_with_query_is_a_file_request e req q :
  target req = summary_json +:+ String "?" q ->
  handle lib script_file e req = super_do_GET lib e (fresh script_file req)
  /\ translate_path (parent script_file) (target req) = (own_summary script_file, false)
  /\ (os_stat (fs e) (own_summary script_file) = Raise FileNotFoundError ->
      status (GET lib script_file e req) = Some 404)
  /\ (forall content mtime,
        os_stat (fs e) (own_summary script_file) = Ok (File content mtime) ->
        not_modified lib (request_headers req) mtime = false ->
        status (GET lib script_file e req) = Some 200
        /\ body (GET lib script_file e req) = content).
Proof.
  intros Hq.
  assert (H1 : target req <> "/") by (rewrite Hq; unfold summary_json; cbn; discriminate).
  assert (H2 : target req <> summary_json)
    by (rewrite Hq; unfold summary_json; cbn; discriminate).
  assert (Ht : translate_path (parent script_file) (target req)
               = (own_summary script_file, false))
    by (rewrite Hq; apply translate_summary_with_query).
  split; [now apply handle_other |].
  split; [exact Ht |].
  split.
  - intros Hs. unfold GET. rewrite handle_other by assumption.
    erewrite (super_do_GET_missing lib e (fresh script_file req)) by eassumption.
    cbn [snd]. apply error_sent_status; reflexivity.
  - intros content mtime Hs Hm.
    destruct (read_file_answer_200 e (request_headers req) (own_summary script_file)
                content mtime (GET lib script_file e req) Hm)
      as (Hst & _ & _ & _ & Hb).
    { unfold GET. rewrite handle_other by assumption.
      now apply (GET_file e (fresh script_file req)). }
    split; assumption.
Qed.

(** *** The root *)

Lemma GET_root e req content mtime :
  target req = "/" ->
  os_stat (fs e) (parent script_file ++ ["index.html"]) = Ok (File content mtime) ->
  GET lib script_file e req
  = read_response
      (file_answer lib e (request_headers req) (parent script_file ++ ["index.html"])
         content mtime).
Proof.
  intros Ht Hs. unfold GET. rewrite handle_root by assumption.
  apply (GET_file e (on_self (with_path "/index.html") (fresh script_file req)));
    [reflexivity | reflexivity | apply translate_index_html | exact Hs].
Qed.

(** X6. With a regular file [index.html] in the script's directory, a
    GET of [/] that is not answered from the browser's cache gets status
    200, the content type guessed for the name [index.html], and that
    file's bytes. *)
Theorem root_sends_index_html e req content mtime :
  target req = "/" ->
  os_stat (fs e) (parent script_file ++ ["index.html"]) = Ok (File content mtime) ->
  not_modified lib (request_headers req) mtime = false ->
  status (GET lib script_file e req) = Some 200
  /\ get_field "Content-Type" (fields (GET lib script_file e req))
     = Some (guess_type lib "index.html")
  /\ get_field "Content-Length" (fields (GET lib script_file e req))
     = Some (intstr (Z.of_nat (length content)))
  /\ body (GET lib script_file e req) = content.
Proof.
  intros Ht Hs Hm.
  destruct (read_file_answer_200 e (request_headers req)
              (parent script_file ++ ["index.html"]) content mtime
              (GET lib script_file e req) Hm (GET_root e req content mtime Ht Hs))
    as (H1 & H2 & H3 & _ & H4).
  unfold basename in H2. rewrite last_last in H2.
  repeat split; assumption.
Qed.

(** X7. With nothing called [index.html] in the script's directory, a
    GET of [/] is answered 404: the rewritten path is looked up as a file
    and no directory listing is made. *)
Theorem root_without_index_html e req :
  target req = "/" ->
  os_stat (fs e) (parent script_file ++ ["index.html"]) = Raise FileNotFoundError ->
  fst (handle lib script_file e req) = Ok tt
  /\ status (GET lib script_file e req) = Some 404
  /\ Forall (fun c => c <> sys_listdir (parent script_file))
       (trace lib script_file e req).
Proof.
  intros Ht Hs. unfold GET, trace. rewrite handle_root by assumption.
  erewrite (super_do_GET_missing lib e
              (on_self (with_path "/index.html") (fresh script_file req)))
    by (try apply translate_index_html; exact Hs).
  split; [reflexivity |].
  split; [apply error_sent_status; reflexivity |].
  cbn [snd]. unfold error_sent.
  destruct (error_message lib 404 "File not found" "Nothing matches the given URI");
    cbn; repeat constructor; discriminate.
Qed.

(** X8. A query after the root is not rewritten by [do_GET], and yet the
    dashboard page comes back: when the script's directory is there and
    holds a regular file [index.html], the default file serving finds it
    as the directory's index, and the response is the very response to
    [/], given that the library's [urlsplit] leaves a path ending in a
    slash. *)
Theorem root_with_query_gets_the_index e req q content mtime :
  target req = String "/" (String "?" q) ->
  os_stat (fs e) (parent script_file) = Ok Dir ->
  endswith_slash (urlsplit_path lib (target req)) = true ->
  os_stat (fs e) (parent script_file ++ ["index.html"]) = Ok (File content mtime) ->
  GET lib script_file e req
  = GET lib script_file e {| target := "/"; request_headers := request_headers req |}.
Proof.
  intros Hq Hd Hu Hs.
  rewrite (GET_root e {| target := "/"; request_headers := request_headers req |}
             content mtime eq_refl Hs).
  cbn [request_headers].
  assert (H1 : target req <> "/") by (rewrite Hq; discriminate).
  assert (H2 : target req <> summary_json) by (rewrite Hq; unfold summary_json; discriminate).
  unfold GET. rewrite handle_other by assumption.
  erewrite (super_do_GET_serves_index e (fresh script_file req) (parent script_file) true)
    by (try eassumption; cbn [fresh self TestDashboardHandler directory path];
        rewrite Hq; apply translate_root_with_query).
  cbn [snd].
  exact (read_served_file e
           (logged [sys_stat (parent script_file);
                    sys_stat (parent script_file ++ ["index.html"])]
              (fresh script_file req))
           (parent script_file ++ ["index.html"]) content mtime eq_refl eq_refl).
Qed.

(** *** Containment *)





























(** *** The script as a whole *)

Lemma serve_forever_loop_spec (events : list event) :
  serve_forever_loop lib script_file events
  = (List.map (fun er => handle lib script_file (fst er) (snd er)) (before_interrupt events),
     if existsb is_SIGINT events then KeyboardInterrupt else blocked_in_select).
Proof.
  induction events as [| [e req | ] events IH]; cbn [serve_forever_loop]; [reflexivity | |].
  - rewrite IH. reflexivity.
  - reflexivity.
Qed.

(** X11. With the port free the script prints its two lines and serves.
    Every connection that arrives before the first interrupt is answered
    by [do_GET] on a handler of its own, also when an earlier [do_GET]
    raised; nothing is answered after the interrupt. On the interrupt the
    script prints its farewell and exits: [shutdown] finds the event
    already set and does not wait. Without an interrupt it prints no
    farewell and goes on serving. *)
Theorem main_serves_until_interrupted (events : list event) :
  outcomes (main lib script_file true events)
  = List.map (fun er => handle lib script_file (fst er) (snd er)) (before_interrupt events)
  /\ stdout (main lib script_file true events)
     = banner ++ (if existsb is_SIGINT events then [farewell] else [])
  /\ ended (main lib script_file true events)
     = (if existsb is_SIGINT events then exited else still_serving).
Proof.
  unfold main, serve_forever. cbn [shutdown_requested].
  rewrite serve_forever_loop_spec.
  destruct (existsb is_SIGINT events); cbn; rewrite ?app_nil_r; repeat split.
Qed.

End Behaviour.








Lemma results_path_is_a_directory_witness :
  os_stat (fs Cases.blocked) (test_results_path Demo.script_file) = Ok Dir
  /\ fst (handle Demo.lib Demo.script_file Cases.blocked (Demo.get summary_json))
     = Raise IsADirectoryError
  /\ body (GET Demo.lib Demo.script_file Cases.blocked (Demo.get summary_json)) = [].
Proof.
  assert (Hs : os_stat (fs Cases.blocked) (test_results_path Demo.script_file) = Ok Dir)
    by (vm_compute; reflexivity).
  split; [exact Hs |].
  destruct (results_path_is_a_directory Demo.lib Demo.script_file Cases.blocked
              (Demo.get summary_json) eq_refl Hs)
    as (H1 & _ & _ & H2 & _).
  split; assumption.
Defined.

Lemma summary_ignores_request_fields_witness :
  GET Demo.lib Demo.script_file Demo.after_tests (Demo.get summary_json)
  = GET Demo.lib Demo.script_file Demo.after_tests
      {| target := summary_json;
         request_headers := [("If-Modified-Since", "Tue, 21 Jan 2025 13:00:00 GMT")] |}.
Proof.
  apply (summary_ignores_request_fields Demo.lib Demo.script_file Demo.after_tests);
    reflexivity.
Defined.

Lemma summary_header_fields_witness :
  get_field "Content-Length"
    (fields (GET Demo.lib Demo.script_file Demo.after_tests (Demo.get summary_json)))
  = None.
Proof.
  exact (proj1 (proj2 (summary_header_fields Demo.lib Demo.script_file Demo.after_tests
                         (Demo.get summary_json) eq_refl))).
Defined.



Lemma summary_with_query_is_a_file_request_witness :
  status (GET Demo.lib Demo.script_file Demo.morning
            (Demo.get "/test-results/summary.json?t=1737460800")) = Some 404
  /\ body (GET Demo.lib Demo.script_file Demo.evening
             (Demo.get "/test-results/summary.json?t=1737460800")) = Demo.stray.
Proof.
  split.
  - destruct (summary_with_query_is_a_file_request Demo.lib Demo.script_file Demo.morning
                (Demo.get "/test-results/summary.json?t=1737460800") "t=1737460800" eq_refl)
      as (_ & _ & H & _).
    apply H. vm_compute. reflexivity.
  - destruct (summary_with_query_is_a_file_request Demo.lib Demo.script_file Demo.evening
                (Demo.get "/test-results/summary.json?t=1737460800") "t=1737460800" eq_refl)
      as (_ & _ & _ & H).
    apply (H Demo.stray 1737464400); vm_compute; reflexivity.
Defined.

Lemma root_sends_index_html_witness :
  status (GET Demo.lib Demo.script_file Demo.morning (Demo.get "/")) = Some 200
  /\ get_field "Content-Type"
       (fields (GET Demo.lib Demo.script_file Demo.morning (Demo.get "/")))
     = Some "text/html"
  /\ body (GET Demo.lib Demo.script_file Demo.morning (Demo.get "/")) = Demo.index_html.
Proof.
  destruct (root_sends_index_html Demo.lib Demo.script_file Demo.morning (Demo.get "/")
              Demo.index_html 1737460800 eq_refl)
    as (H1 & H2 & _ & H3);
    [vm_compute; reflexivity | reflexivity |].
  repeat split; assumption.
Defined.

Lemma root_without_index_html_witness :
  os_stat (fs Cases.bare) (parent Demo.script_file ++ ["index.html"])
  = Raise FileNotFoundError
  /\ status (GET Demo.lib Demo.script_file Cases.bare (Demo.get "/")) = Some 404.
Proof.
  assert (Hs : os_stat (fs Cases.bare) (parent Demo.script_file ++ ["index.html"])
               = Raise FileNotFoundError) by (vm_compute; reflexivity).
  split; [exact Hs |].
  exact (proj1 (proj2 (root_without_index_html Demo.lib Demo.script_file Cases.bare
                         (Demo.get "/") eq_refl Hs))).
Defined.

Lemma root_with_query_gets_the_index_witness :
  GET Demo.lib Demo.script_file Demo.morning (Demo.get "/?x=1")
  = GET Demo.lib Demo.script_file Demo.morning (Demo.get "/").
Proof.
  apply (root_with_query_gets_the_index Demo.lib Demo.script_file Demo.morning
           (Demo.get "/?x=1") "x=1" Demo.index_html 1737460800);
    vm_compute; reflexivity.
Defined.


(** ** json, there and back *)

Lemma append_assoc (a b c : string) : (a +:+ b) +:+ c = a +:+ (b +:+ c).
Proof.
  induction a as [| x a IH]; [reflexivity |].
  change (String x ((a +:+ b) +:+ c) = String x (a +:+ (b +:+ c))).
  now rewrite IH.
Qed.

(** One escaped character is read back as the character it stands for. *)
Lemma scanstring_escape_char (c : ascii) (rest : string) :
  json.scanstring (json.escape_char c +:+ rest)
  = json.cons_char c (json.scanstring rest).
Proof.
  destruct c as [[] [] [] [] [] [] [] []]; reflexivity.
Qed.

Lemma scanstring_escape_ascii (s rest : string) :
  json.scanstring (json.escape_ascii s +:+ String dquote rest) = Some (s, rest).
Proof.
  induction s as [| c s IH]; [reflexivity |].
  cbn [json.escape_ascii]. rewrite append_assoc, scanstring_escape_char, IH.
  reflexivity.
Qed.

(** X12. Every string survives the way through [json.dumps] and
    [json.loads], whatever bytes it holds (quotes, backslashes, control
    characters, bytes above 127) and whatever the indent. *)
Theorem string_round_trip (s : string) (indent : option nat) :
  json.loads (json.dumps (json.Str s) indent) = Some (json.Str s).
Proof.
  unfold json.dumps, json.loads. cbn [json.iterencode].
  unfold json.encode_basestring_ascii.
  change (json.skip_ws (String dquote (json.escape_ascii s +:+ str1 dquote)))
    with (String dquote (json.escape_ascii s +:+ str1 dquote)).
  cbn [json.scan_once]. change (Ascii.eqb dquote dquote) with true. cbv iota.
  unfold str1. rewrite scanstring_escape_ascii. reflexivity.
Qed.

(** *** Numbers

    A number read off the head of a text is the number read alone when
    what follows cannot continue it. *)



Lemma number_ends_take_digits (rest : string) :
  number_ends rest = true -> json.take_digits rest = ("", rest).
Proof.
  destruct rest as [| c rest]; [reflexivity |]. cbn.
  destruct (json.is_digit c); [discriminate | reflexivity].
Qed.





(** *** Integers: [int.__repr__] read back *)










(** *** Documents *)






Section Documents.
Variable indent : option nat.
#[local] Abbreviation isep := (item_separator indent).
#[local] Abbreviation enc := (json.iterencode indent (item_separator indent) ": ").
#[local] Abbreviation sep l := (item_separator indent +:+ opening indent l).

























End Documents.




